(** * FDA drug approval dashboard ([FDA4.py])

    A shallow embedding of the script: the search expression built from the
    sidebar inputs, the single request to the registry, the reshaping of the
    decoded records into a table, the count of approvals per month and the
    CSV export, followed by the properties of each stage.

    Python values are modelled as follows.  A [str] is a [string] (one
    [ascii] per character), an [int] is a [Z], a [datetime.date] is a
    [date] record, a decoded JSON document is a [json] tree whose objects are
    finite maps, and a raised exception is the [Raise] case of [result]. *)

From stdpp Require Import gmap strings list sorting.
From Stdlib Require Import ZArith Lia.

#[local] Set Warnings "-register-all".
#[local] Open Scope Z_scope.

(** ** Exceptions and the error monad *)

(** The members of [requests.exceptions.RequestException] the script can
    meet: a failure below HTTP raised by [requests.get] (connection refused,
    DNS failure, time-out, ...), the [HTTPError] of [raise_for_status], and the
    [JSONDecodeError] of [Response.json], which the library derives from
    [RequestException] (requests 2.27 and later). *)
Inductive request_exception :=
| TransportError (detail : string)
| HTTPError (status_code : Z)
| JSONDecodeError.

(** The exceptions the lines of the script raise.  Besides those of
    [requests]: the two the JSON decoder raises by itself, which
    [Response.json] does not turn into a [JSONDecodeError] ([ValueError] for
    an integer too long to convert, [RecursionError] for a document nested too
    deep), and the four of the operations on the decoded value ([get], [[0]],
    [for]). *)
Inductive exn :=
| RequestException (e : request_exception)
| ValueError
| RecursionError
| AttributeError
| IndexError
| KeyError
| TypeError.

Inductive result (A : Type) :=
| Ok (a : A)
| Raise (e : exn).
Arguments Ok {A} a.
Arguments Raise {A} e.

#[global] Instance result_ret : MRet result := @Ok.
#[global] Instance result_bind : MBind result := λ A B f m,
  match m with
  | Ok a => f a
  | Raise e => Raise e
  end.

(** ** Strings *)

(** The double quote, written by its code so that no literal has to
    escape it. *)
Definition dquote : string := String (Ascii.ascii_of_nat 34) "".

(** [bool(s)] for a [str]: only the empty string is false. *)
Definition str_truthy (s : string) : bool :=
  match s with
  | EmptyString => false
  | String _ _ => true
  end.

(** [len(s)] *)
Definition len (s : string) : Z := Z.of_nat (String.length s).

(** [s[:n]] *)
Definition slice_to (n : nat) (s : string) : string := String.substring 0 n s.

(** [sub in s] *)
Definition contains (sub s : string) : Prop :=
  ∃ pre post, s = pre +:+ sub +:+ post.

Definition ends_with (sub s : string) : Prop :=
  ∃ pre, s = pre +:+ sub.

(** ** Calendar dates *)

Record date := Date { year : Z; month : Z; day : Z }.

Definition is_leap (y : Z) : bool :=
  (y mod 4 =? 0) && (negb (y mod 100 =? 0) || (y mod 400 =? 0)).

Definition days_in_month (y m : Z) : Z :=
  if m =? 2 then (if is_leap y then 29 else 28)
  else if (m =? 4) || (m =? 6) || (m =? 9) || (m =? 11) then 30
  else 31.

(** The values a [datetime.date] can take. *)
Definition valid_date (d : date) : bool :=
  (1 <=? year d) && (year d <=? 9999) &&
  (1 <=? month d) && (month d <=? 12) &&
  (1 <=? day d) && (day d <=? days_in_month (year d) (month d)).

(** [a < b] on dates: year, then month, then day. *)
Definition date_ltb (a b : date) : bool :=
  (year a <? year b) ||
  ((year a =? year b) &&
   ((month a <? month b) || ((month a =? month b) && (day a <? day b)))).

Definition date_leb (a b : date) : bool := negb (date_ltb b a).

(** The decimal digit [0 <= n <= 9] as a character. *)
Definition digit_char (n : Z) : Ascii.ascii := Ascii.ascii_of_nat (48 + Z.to_nat n).

(** [n] written with exactly [width] decimal digits, most significant
    first, padded with zeros on the left ([%04d], [%02d]). *)
Fixpoint zero_padded (width : nat) (n : Z) : string :=
  match width with
  | O => ""
  | S w => String (digit_char ((n / 10 ^ Z.of_nat w) mod 10)) (zero_padded w n)
  end.

(** [d.strftime("%Y%m%d")]: the year with four digits, as the table of
    directives has it for [%Y] (every date the sidebar offers has a year of
    four digits), then month and day with two digits each. *)
Definition strftime_Ymd (d : date) : string :=
  zero_padded 4 (year d) +:+ zero_padded 2 (month d) +:+ zero_padded 2 (day d).

Definition digit_value (c : Ascii.ascii) : option Z :=
  let n := Z.of_nat (Ascii.nat_of_ascii c) in
  if (48 <=? n) && (n <=? 57) then Some (n - 48) else None.

(** Reads exactly [width] decimal digits from the front of [s]. *)
Fixpoint read_digits (width : nat) (s : string) (acc : Z) : option (Z * string) :=
  match width with
  | O => Some (acc, s)
  | S w =>
      match s with
      | EmptyString => None
      | String c rest =>
          match digit_value c with
          | Some d => read_digits w rest (acc * 10 + d)
          | None => None
          end
      end
  end.

(** One alternative of a directive's pattern: the number it reads at the
    front of the string and what is left, or [None]. *)
Definition alternative := string → option (Z * string).

Definition digit_in (lo hi : Z) (c : Ascii.ascii) : option Z :=
  d ← digit_value c;
  if (lo <=? d) && (d <=? hi) then Some d else None.

(** [[lo1-hi1][lo2-hi2]] *)
Definition two_digits (lo1 hi1 lo2 hi2 : Z) : alternative := λ s,
  match s with
  | String a (String b rest) =>
      d1 ← digit_in lo1 hi1 a;
      d2 ← digit_in lo2 hi2 b;
      Some (10 * d1 + d2, rest)
  | _ => None
  end.

(** [[lo-hi]] *)
Definition one_digit (lo hi : Z) : alternative := λ s,
  match s with
  | String a rest => d ← digit_in lo hi a; Some (d, rest)
  | EmptyString => None
  end.

(** [ [1-9]]: a space, then a digit. *)
Definition space_digit : alternative := λ s,
  match s with
  | String c rest =>
      if Ascii.eqb c (Ascii.ascii_of_nat 32) then one_digit 1 9 rest else None
  | EmptyString => None
  end.

(** [%m] is [1[0-2]|0[1-9]|[1-9]]. *)
Definition month_alternatives : list alternative :=
  [two_digits 1 1 0 2; two_digits 0 0 1 9; one_digit 1 9].

(** [%d] is [3[01]|[12]\d|0[1-9]|[1-9]| [1-9]]. *)
Definition day_alternatives : list alternative :=
  [two_digits 3 3 0 1; two_digits 1 2 0 9; two_digits 0 0 1 9;
   one_digit 1 9; space_digit].

(** The first alternative, in the order written, after which the rest of
    the pattern [k] matches: the choice a backtracking matcher makes. *)
Fixpoint first_match {A} (alts : list alternative)
    (k : Z → string → option A) (s : string) : option A :=
  match alts with
  | [] => None
  | a :: more =>
      match a s ≫= (λ '(v, rest), k v rest) with
      | Some r => Some r
      | None => first_match more k s
      end
  end.

(** [%m%d] matched at the front of [s]: month, day and what is left. *)
Definition match_md (s : string) : option (Z * Z * string) :=
  first_match month_alternatives
    (λ m s2, first_match day_alternatives (λ d s3, Some (m, d, s3)) s2) s.

(** [%Y%m%d] matched at the front of [s]: four digits of year, then
    [%m%d]. *)
Definition match_Ymd (s : string) : option (Z * Z * Z * string) :=
  '(y, s1) ← read_digits 4 s 0;
  '(m, d, rest) ← match_md s1;
  Some (y, m, d, rest).

(** [strptime(s, "%Y%m%d")]: the pattern must match at the front of [s]
    and leave nothing over, and the numbers must name a date of the calendar;
    [None] is the [ValueError]. *)
Definition strptime_Ymd (s : string) : option date :=
  '(y, m, d, rest) ← match_Ymd s;
  if str_truthy rest then None
  else if valid_date (Date y m d) then Some (Date y m d) else None.

(** ** QueryBuilder: lines 31-48 *)

(** The sidebar widgets of lines 17-24 and the button of line 57. *)
Record inputs := Inputs {
  start_date : date;
  end_date : date;
  manufacturer_name : string;
  generic_name : string;
  fetch_button : bool
}.

(** Line 35: the base expression with the date range. *)
Definition date_range (start_date_str end_date_str : string) : string :=
  "effective_time:[" +:+ start_date_str +:+ " TO " +:+ end_date_str +:+ "]".

(** Lines 38-40: the clause added for the manufacturer. *)
Definition manufacturer_clause (manufacturer_name : string) : string :=
  if str_truthy manufacturer_name then
    let manufacturer_search := slice_to 4 manufacturer_name +:+ "*" in
    " AND openfda.manufacturer_name:" +:+ manufacturer_search
  else "".

(** Lines 43-48: the clause added for the generic name. *)
Definition generic_clause (generic_name : string) : string :=
  if str_truthy generic_name then
    if 4 <? len generic_name then
      " AND openfda.generic_name.exact:" +:+ dquote +:+ generic_name +:+ dquote
    else
      let generic_search := slice_to 4 generic_name +:+ "*" in
      " AND openfda.generic_name:" +:+ generic_search
  else "".

(** Lines 31-48: [search_query] once both [+=] have run. *)
Definition search_query (i : inputs) : string :=
  let start_date_str := strftime_Ymd (start_date i) in
  let end_date_str := strftime_Ymd (end_date i) in
  (date_range start_date_str end_date_str
     +:+ manufacturer_clause (manufacturer_name i))
    +:+ generic_clause (generic_name i).

(** ** Decoded JSON: what [response.json()] returns *)

(** Numbers are the integers: no field the script reads is compared or
    computed with as a float. *)
Inductive json :=
| JNull
| JBool (b : bool)
| JInt (n : Z)
| JStr (s : string)
| JArr (items : list json)
| JObj (fields : gmap string json).

(** [v.get(key, default)]: a method of [dict] only. *)
Definition py_get (v : json) (key : string) (default_ : json) : result json :=
  match v with
  | JObj fields => Ok (default default_ (fields !! key))
  | _ => Raise AttributeError
  end.

(** [v[0]]: the first item of a list, the first character of a string; an
    empty one raises [IndexError]; a dict decoded from JSON has no key [0];
    the other values are not subscriptable. *)
Definition py_first (v : json) : result json :=
  match v with
  | JArr [] => Raise IndexError
  | JArr (x :: _) => Ok x
  | JStr EmptyString => Raise IndexError
  | JStr (String c _) => Ok (JStr (String c ""))
  | JObj _ => Raise KeyError
  | JNull | JBool _ | JInt _ => Raise TypeError
  end.

(** [bool(v)] *)
Definition py_truthy (v : json) : bool :=
  match v with
  | JNull => false
  | JBool b => b
  | JInt n => negb (n =? 0)
  | JStr s => str_truthy s
  | JArr items => match items with [] => false | _ :: _ => true end
  | JObj fields => negb (bool_decide (size fields = 0%nat))
  end.

(** [for x in v]: the items of a list, the characters of a string, the
    keys of a dict (here in the order of the map, not of insertion; every key
    is a string whatever the order). *)
Definition py_iter (v : json) : result (list json) :=
  match v with
  | JArr items => Ok items
  | JStr s => Ok ((λ c, JStr (String c "")) <$> String.list_ascii_of_string s)
  | JObj fields => Ok ((λ kv, JStr kv.1) <$> map_to_list fields)
  | JNull | JBool _ | JInt _ => Raise TypeError
  end.

(** ** RecordNormalizer, first half: lines 71-77 *)

(** The dict appended to [drug_data]: four fixed keys. *)
Record drug_entry := DrugEntry {
  Brand_Name : json;
  Generic_Name : json;
  Manufacturer_Name : json;
  Effective_Time : json
}.

Definition NA : json := JStr "N/A".

(** [drug.get('openfda', {}).get(field, ['N/A'])[0]] *)
Definition openfda_first (drug : json) (field : string) : result json :=
  openfda ← py_get drug "openfda" (JObj ∅);
  values ← py_get openfda field (JArr [NA]);
  py_first values.

(** Lines 72-77: the dict display, its values evaluated in order. *)
Definition drug_dict (drug : json) : result drug_entry :=
  brand ← openfda_first drug "brand_name";
  generic ← openfda_first drug "generic_name";
  manufacturer ← openfda_first drug "manufacturer_name";
  effective ← py_get drug "effective_time" NA;
  mret (DrugEntry brand generic manufacturer effective).

(** Lines 70-77: the loop over [results]. *)
Definition build_drug_data (results : json) : result (list drug_entry) :=
  drugs ← py_iter results;
  mapM drug_dict drugs.

(** ** pandas: the calls of lines 80-87 and 103 *)

(** The days a [datetime64[ns]] can hold at midnight:
    [Timestamp.min] is in the night of 1677-09-21 and [Timestamp.max] in the
    evening of 2262-04-11. *)
Definition Timestamp_first_day : date := Date 1677 9 22.
Definition Timestamp_last_day : date := Date 2262 4 11.

Definition in_Timestamp_range (d : date) : bool :=
  date_leb Timestamp_first_day d && date_leb d Timestamp_last_day.

(** [str(n)] for an [int]. *)
Fixpoint decimal_aux (fuel : nat) (n : Z) (acc : string) : string :=
  let acc' := String (digit_char (n mod 10)) acc in
  match fuel with
  | O => acc'
  | S f => if n <? 10 then acc' else decimal_aux f (n / 10) acc'
  end.

Definition str_of_int (n : Z) : string :=
  if n <? 0 then "-" +:+ decimal_aux (Z.to_nat (Z.log2 (- n))) (- n) ""
  else decimal_aux (Z.to_nat (Z.log2 n)) n "".

(** One cell under [pd.to_datetime(..., errors='coerce', format='%Y%m%d')]:
    a string is parsed with the format, a number through its [str]; what does
    not parse, what falls outside the range of a timestamp, and any other
    value, is [NaT] ([None]). *)
Definition to_datetime_cell (v : json) : option date :=
  let text :=
    match v with
    | JStr s => Some s
    | JInt n => Some (str_of_int n)
    | JNull | JBool _ | JArr _ | JObj _ => None
    end in
  s ← text;
  d ← strptime_Ymd s;
  if in_Timestamp_range d then Some d else None.

(** Line 83: [pd.to_datetime] over a column. *)
Definition to_datetime (column : list json) : list (option date) :=
  to_datetime_cell <$> column.

(** A monthly period is its ordinal: the number of months since January
    1970, as pandas stores it. *)
Definition period (y m : Z) : Z := (y - 1970) * 12 + (m - 1).
Definition period_year (p : Z) : Z := 1970 + p / 12.
Definition period_month (p : Z) : Z := p mod 12 + 1.

(** Line 84: [.dt.to_period('M')]; [NaT] stays [NaT]. *)
Definition to_period_cell (t : option date) : option Z :=
  match t with
  | Some d => Some (period (year d) (month d))
  | None => None
  end.

Definition to_period_M (column : list (option date)) : list (option Z) :=
  to_period_cell <$> column.

(** One more row in the group of [key]: the groups are kept in ascending
    order of their key. *)
Fixpoint tally (key : Z) (groups : list (Z * nat)) : list (Z * nat) :=
  match groups with
  | [] => [(key, 1%nat)]
  | (k, n) :: rest =>
      if key <? k then (key, 1%nat) :: groups
      else if key =? k then (k, S n) :: rest
      else (k, n) :: tally key rest
  end.

(** Line 87: [groupby(key).size()] with the defaults [sort=True] and
    [dropna=True]: a row whose key is [NaT] belongs to no group, and the
    groups come out in ascending order of their key. *)
Definition groupby_size (keys : list (option Z)) : list (Z * nat) :=
  foldr (λ key groups,
           match key with
           | Some k => tally k groups
           | None => groups
           end) [] keys.

(** A column of a [DataFrame], by dtype. *)
Inductive Series :=
| ObjectSeries (values : list json)
| DatetimeSeries (values : list (option date))
| PeriodSeries (values : list (option Z)).

(** A [DataFrame]: its columns, labelled, in order. *)
Definition DataFrame := list (string * Series).

Inductive cell :=
| ObjectCell (v : json)
| DatetimeCell (t : option date)
| PeriodCell (p : option Z)
| IndexCell (i : nat).

Definition series_cells (s : Series) : list cell :=
  match s with
  | ObjectSeries values => ObjectCell <$> values
  | DatetimeSeries values => DatetimeCell <$> values
  | PeriodSeries values => PeriodCell <$> values
  end.

(** Line 80: [pd.DataFrame(drug_data)], one column per key of the dicts, in
    the order of the keys.  The list has an entry whenever the script gets
    here ([build_drug_data_nonempty]), so the four keys are there. *)
Definition pd_DataFrame (drug_data : list drug_entry) : DataFrame :=
  [("Brand Name", ObjectSeries (Brand_Name <$> drug_data));
   ("Generic Name", ObjectSeries (Generic_Name <$> drug_data));
   ("Manufacturer Name", ObjectSeries (Manufacturer_Name <$> drug_data));
   ("Effective Time", ObjectSeries (Effective_Time <$> drug_data))].

(** [df[label]] *)
Fixpoint getitem (df : DataFrame) (label : string) : option Series :=
  match df with
  | [] => None
  | (l, column) :: rest =>
      if String.eqb l label then Some column else getitem rest label
  end.

(** [df[label] = column]: an existing column is replaced where it stands, a
    new one is added after the last. *)
Fixpoint setitem (df : DataFrame) (label : string) (column : Series) : DataFrame :=
  match df with
  | [] => [(label, column)]
  | (l, old) :: rest =>
      if String.eqb l label then (l, column) :: rest
      else (l, old) :: setitem rest label column
  end.

Definition columns (df : DataFrame) : list string := fst <$> df.

(** [len(df)] *)
Definition nrows (df : DataFrame) : nat :=
  match df with
  | [] => 0%nat
  | (_, column) :: _ => length (series_cells column)
  end.

Definition row_at (df : DataFrame) (i : nat) : list cell :=
  (λ lc, default (ObjectCell JNull) (series_cells lc.2 !! i)) <$> df.

(** The text of [df.to_csv(index=...)] by its content: the labels of the
    header line and the fields of every record after it, in order.  With
    [index=True] each line starts with one more field, the row number under an
    empty label. *)
Record csv := Csv {
  csv_header : list string;
  csv_records : list (list cell)
}.

Definition to_csv (index : bool) (df : DataFrame) : csv :=
  let body := row_at df <$> seq 0 (nrows df) in
  if index then
    Csv ("" :: columns df)
        ((λ ir, IndexCell ir.1 :: ir.2) <$> zip (seq 0 (nrows df)) body)
  else Csv (columns df) body.

(** Lines 80-87: the table and the counts made from [drug_data].  The two
    reads of [df['Effective Time']] are the column stored just before
    ([getitem_Effective_Time_raw], [getitem_Effective_Time]). *)
Definition analyse (drug_data : list drug_entry) : DataFrame * list (Z * nat) :=
  let df := pd_DataFrame drug_data in
  let effective_time := to_datetime (Effective_Time <$> drug_data) in
  let df := setitem df "Effective Time" (DatetimeSeries effective_time) in
  let approval_month := to_period_M effective_time in
  let df := setitem df "Approval Month" (PeriodSeries approval_month) in
  let monthly_counts := groupby_size approval_month in
  (df, monthly_counts).

(** ** RegistryClient: lines 60-65 *)

(** Line 8. *)
Definition url : string := "https://api.fda.gov/drug/label.json".

(** What [response.json()] makes of a body.  The body is JSON and the
    decoder returns its value; or it is not JSON; or it is JSON the decoder
    gives up on: an integer with more digits than [int] converts from text
    (4300 unless configured otherwise, Python 3.11 and later), or a nesting
    deeper than the recursion limit of the interpreter allows. *)
Inductive decoding :=
| Decoded (data : json)
| NotJSON
| IntegerTooLong
| NestingTooDeep.

(** What the script looks at in a [requests.Response]: the status, and the
    body as the decoder takes it. *)
Record response := Response {
  status_code : Z;
  body : decoding
}.

(** What [requests.get] does: it raises and no response comes back
    (connection refused, DNS failure, time-out, ...), or it returns a
    response. *)
Inductive reply :=
| Failed (detail : string)
| Replied (r : response).

(** The registry, as seen from the script: url, [search], [limit]. *)
Definition registry := string → string → Z → reply.

Definition requests_get (api : registry) (url search : string) (limit : Z)
    : result response :=
  match api url search limit with
  | Failed detail => Raise (RequestException (TransportError detail))
  | Replied r => Ok r
  end.

(** [response.raise_for_status()]: [HTTPError] for a status from 400 to
    599. *)
Definition raise_for_status (r : response) : result unit :=
  if (400 <=? status_code r) && (status_code r <? 600)
  then Raise (RequestException (HTTPError (status_code r)))
  else Ok ().

(** [response.json()]: the failure to parse is caught by the library and
    raised again as its own [JSONDecodeError]; the other two exceptions of the
    decoder pass through as they are. *)
Definition response_json (r : response) : result json :=
  match body r with
  | Decoded v => Ok v
  | NotJSON => Raise (RequestException JSONDecodeError)
  | IntegerTooLong => Raise ValueError
  | NestingTooDeep => Raise RecursionError
  end.

(** Lines 60-65: the value of [results]. *)
Definition fetch (api : registry) (search : string) : result json :=
  response ← requests_get api url search 500;
  raise_for_status response;;
  data ← response_json response;
  py_get data "results" (JArr []).

(** ** The script *)

(** The text of a message: a literal, or an f-string that ends with an
    exception. *)
Inductive message :=
| Literal (text : string)
| WithException (text : string) (e : request_exception).

(** What a run does, besides drawing the title and the sidebar: the calls
    to streamlit and the request, in order. *)
Inductive event :=
| st_error (m : message)
| st_info (m : message)
| http_get (url search : string) (limit : Z)
| st_dataframe (df : DataFrame)
| st_subheader (text : string)
| st_pyplot (bars : list (Z * nat))
| st_download_button (label : string) (data : csv) (file_name mime : string).

(** How a run ends: normally, or on an exception nothing catches. *)
Inductive outcome :=
| Completed
| Uncaught (e : exn).

(** Lines 89-109: the table, the chart and the download.  The bar plot of
    line 95 reads the position of its first bar, so on a Series without any
    group it raises [IndexError]: the run ends there, after the table and the
    subheader. *)
Definition show (drug_data : list drug_entry) : list event * outcome :=
  let '(df, monthly_counts) := analyse drug_data in
  let table := [st_dataframe df; st_subheader "Monthly Drug Approvals"] in
  match monthly_counts with
  | [] => (table, Uncaught IndexError)
  | _ :: _ =>
      (table ++
         [st_pyplot monthly_counts;
          st_download_button "Download data as CSV" (to_csv false df)
            "drug_labels.csv" "text/csv"],
       Completed)
  end.

(** Lines 60-77: the part of the [try] that shows nothing: the request and
    the reshaping of the records; [None] when [results] is false. *)
Definition gather (api : registry) (search : string)
    : result (option (list drug_entry)) :=
  results ← fetch api search;
  if py_truthy results then
    drug_data ← build_drug_data results;
    mret (Some drug_data)
  else mret None.

(** Lines 27-114.  The [except] clause of line 113 takes the
    [RequestException]s and lets every other exception through; the one of
    line 95 is of the others. *)
Definition script (i : inputs) (api : registry) : list event * outcome :=
  if date_ltb (end_date i) (start_date i) then
    ([st_error (Literal "Error: Start Date must be before End Date.")], Completed)
  else
    let search := search_query i in
    if fetch_button i then
      let sent := http_get url search 500 in
      match gather api search with
      | Ok (Some drug_data) =>
          let '(shown, ended) := show drug_data in (sent :: shown, ended)
      | Ok None =>
          ([sent;
            st_info (Literal "No drug labels found for the selected parameters.")],
           Completed)
      | Raise (RequestException e) =>
          ([sent; st_error (WithException "Error fetching data from FDA API: " e)],
           Completed)
      | Raise e => ([sent], Uncaught e)
      end
    else ([], Completed).

(** ** The components by the names of the specification *)

Module NormalizedRow.
Record t := Make {
  brand_name : json;
  generic_name : json;
  manufacturer_name : json;
  effective_time : option date
}.
End NormalizedRow.

(** The row of the table made from one entry of [drug_data]: line 83 on
    its cell of [Effective Time]. *)
Definition row_of_entry (entry : drug_entry) : NormalizedRow.t :=
  NormalizedRow.Make (Brand_Name entry) (Generic_Name entry)
    (Manufacturer_Name entry) (to_datetime_cell (Effective_Time entry)).

(** RecordNormalizer: lines 72-77, then line 83, for one record. *)
Definition normalize (raw : json) : result NormalizedRow.t :=
  entry ← drug_dict raw;
  mret (row_of_entry entry).

(** MonthlyAggregator: lines 84 and 87 on the rows. *)
Definition aggregate (rows : list NormalizedRow.t) : list (Z * nat) :=
  groupby_size (to_period_M (NormalizedRow.effective_time <$> rows)).

(** The fields of a row as the export writes them. *)
Definition csv_record (row : NormalizedRow.t) : list cell :=
  [ObjectCell (NormalizedRow.brand_name row);
   ObjectCell (NormalizedRow.generic_name row);
   ObjectCell (NormalizedRow.manufacturer_name row);
   DatetimeCell (NormalizedRow.effective_time row);
   PeriodCell (to_period_cell (NormalizedRow.effective_time row))].

(** ** Reading the results *)

(** The count stored for [key]; 0 when [key] has no group. *)
Fixpoint bucket (key : Z) (groups : list (Z * nat)) : nat :=
  match groups with
  | [] => 0%nat
  | (k, n) :: rest => if key =? k then n else bucket key rest
  end.

(** The month of a row, [None] for a row without a date. *)
Definition approval_month (row : NormalizedRow.t) : option Z :=
  to_period_cell (NormalizedRow.effective_time row).


(** What one of the three names becomes when its field is absent or a
    list that is not empty. *)
Definition first_or_NA (field : option json) : json :=
  match field with
  | Some (JArr (x :: _)) => x
  | _ => NA
  end.

Definition absent_or_nonempty (field : option json) : Prop :=
  field = None ∨ ∃ x rest, field = Some (JArr (x :: rest)).

(** The message shown when the [try] catches a [RequestException]. *)
Definition fetch_error (e : request_exception) : event :=
  st_error (WithException "Error fetching data from FDA API: " e).

Definition network_error_reported (events : list event) : Prop :=
  ∃ e, fetch_error e ∈ events.

(** The exception is one the [except] clause of line 113 catches. *)
Definition raises_request_exception {A} (r : result A) : Prop :=
  ∃ e, r = Raise (RequestException e).

(** The reply makes the [try] end in the [except] clause: the transport
    failed, the status is one [raise_for_status] rejects, or the body is not
    JSON. *)
Definition rejected (r : reply) : Prop :=
  (∃ detail, r = Failed detail)
  ∨ (∃ resp, r = Replied resp
             ∧ (400 ≤ status_code resp < 600 ∨ body resp = NotJSON)).

Definition no_labels_found : event :=
  st_info (Literal "No drug labels found for the selected parameters.").

(** The message of line 28. *)
Definition validation_error : event :=
  st_error (Literal "Error: Start Date must be before End Date.").

(** The data of the download buttons among the events. *)
Definition downloads (events : list event) : list csv :=
  omap (λ ev, match ev with
              | st_download_button _ data _ _ => Some data
              | _ => None
              end) events.

(** ** Sample inputs *)

(** The defaults of the sidebar, the button pressed. *)
Definition sample_inputs : inputs :=
  Inputs (Date 2024 10 1) (Date 2024 10 30) "" "" true.

(** A registry that gives the same reply to every request. *)
Definition always (r : reply) : registry := λ _ _ _, r.

Definition found (records : list json) : reply :=
  Replied (Response 200 (Decoded (JObj {[ "results" := JArr records ]}))).

(** A record whose [openfda.brand_name] is there and empty. *)
Definition empty_brand_record : json :=
  JObj {[ "openfda" := JObj {[ "brand_name" := JArr [] ]};
          "effective_time" := JStr "20241015" ]}.

Definition advil_record : json :=
  JObj {[ "openfda" := JObj {[ "brand_name" := JArr [JStr "Advil"];
                               "generic_name" := JArr [JStr "IBUPROFEN"];
                               "manufacturer_name" := JArr [JStr "Pfizer"] ]};
          "effective_time" := JStr "20241015" ]}.

(** ** Reading a run *)

(** The requests among the events: url, [search], [limit]. *)
Definition http_gets (events : list event) : list (string * string * Z) :=
  omap (λ ev, match ev with
              | http_get u q l => Some (u, q, l)
              | _ => None
              end) events.

(** The tables shown. *)
Definition tables (events : list event) : list DataFrame :=
  omap (λ ev, match ev with st_dataframe df => Some df | _ => None end) events.

(** The charts shown, each by its bars. *)
Definition charts (events : list event) : list (list (Z * nat)) :=
  omap (λ ev, match ev with st_pyplot bars => Some bars | _ => None end) events.

(** The messages of [st.error] and [st.info]. *)
Definition messages (events : list event) : list message :=
  omap (λ ev, match ev with
              | st_error m | st_info m => Some m
              | _ => None
              end) events.

(** A date as the number its [%Y%m%d] text spells. *)
Definition date_number (d : date) : Z :=
  year d * 10000 + month d * 100 + day d.

(** The values [v[0]] does not raise on: a list or a string with something
    in it. *)
Definition has_first (v : json) : bool :=
  match v with
  | JArr (_ :: _) => true
  | JStr (String _ _) => true
  | _ => false
  end.

(** The reply passes lines 60-64: a status [raise_for_status] accepts and a
    body that [response.json()] decodes to [data]. *)
Definition accepted (r : reply) (data : json) : Prop :=
  ∃ resp, r = Replied resp
          ∧ ¬ (400 ≤ status_code resp < 600)
          ∧ body resp = Decoded data.

(** The exception of a true [results] that is no list: a number or [true]
    cannot be iterated; a string gives its characters and an object its keys,
    and a string has no [get]. *)
Definition non_list_exception (results : json) : exn :=
  match results with
  | JStr _ | JObj _ => AttributeError
  | _ => TypeError
  end.

(** * Properties *)

(** ** Strings *)

Section strings.
Implicit Types s t u : string.

Lemma str_app_cons c s t : String c s +:+ t = String c (s +:+ t).
Proof. reflexivity. Qed.

Lemma str_app_assoc s t u : (s +:+ t) +:+ u = s +:+ t +:+ u.
Proof.
  induction s as [|c s IH]; [done |]. by rewrite !str_app_cons, IH.
Qed.

Lemma str_app_nil_r s : s +:+ "" = s.
Proof.
  induction s as [|c s IH]; [done |]. by rewrite str_app_cons, IH.
Qed.

Lemma str_length_app s t :
  String.length (s +:+ t) = (String.length s + String.length t)%nat.
Proof.
  induction s as [|c s IH]; [done |].
  rewrite str_app_cons. cbn [String.length]. by rewrite IH.
Qed.

Lemma contains_middle pre sub post : contains sub (pre +:+ sub +:+ post).
Proof. by exists pre, post. Qed.

Lemma ends_with_contains sub s : ends_with sub s → contains sub s.
Proof. intros [pre ->]. exists pre, "". by rewrite str_app_nil_r. Qed.

Lemma contains_app_l sub s t : contains sub s → contains sub (s +:+ t).
Proof.
  intros (pre & post & ->). exists pre, (post +:+ t).
  by rewrite !str_app_assoc.
Qed.

Lemma contains_app_r sub s t : contains sub t → contains sub (s +:+ t).
Proof.
  intros (pre & post & ->). exists (s +:+ pre), post.
  by rewrite !str_app_assoc.
Qed.

Lemma slice_to_0 s : slice_to 0 s = "".
Proof. by destruct s. Qed.

Lemma slice_to_cons n c s :
  slice_to (S n) (String c s) = String c (slice_to n s).
Proof. reflexivity. Qed.

(** [s[:n]] is the start of [s], of length [min(n, len(s))]. *)
Lemma slice_to_prefix n s : ∃ rest, s = slice_to n s +:+ rest.
Proof.
  revert s. induction n as [|n IH]; intros s.
  - exists s. by rewrite slice_to_0.
  - destruct s as [|c s]; [by exists "" |].
    destruct (IH s) as [rest Hrest]. exists rest.
    by rewrite slice_to_cons, str_app_cons, <- Hrest.
Qed.

Lemma slice_to_length n s :
  String.length (slice_to n s) = (n `min` String.length s)%nat.
Proof.
  revert s. induction n as [|n IH]; intros s.
  - by rewrite slice_to_0.
  - destruct s as [|c s]; [done |].
    rewrite slice_to_cons. cbn [String.length]. rewrite IH. lia.
Qed.

Lemma slice_to_all n s : (String.length s ≤ n)%nat → slice_to n s = s.
Proof.
  revert s. induction n as [|n IH]; intros [|c s]; cbn [String.length];
    try done; try lia.
  intros ?. rewrite slice_to_cons, IH; [done | lia].
Qed.
End strings.

(** ** Dates written and read back *)

Lemma zero_padded_length w n : String.length (zero_padded w n) = w.
Proof. induction w as [|w IH]; simpl; [done | by rewrite IH]. Qed.

Lemma digit_value_digit_char d :
  0 ≤ d ≤ 9 → digit_value (digit_char d) = Some d.
Proof.
  intros Hd. assert (Hin : d ∈ seqZ 0 10) by (apply elem_of_seqZ; lia).
  clear Hd. revert d Hin. apply Forall_forall. compute_done.
Qed.

Lemma read_digits_zero_padded w n rest acc :
  read_digits w (zero_padded w n +:+ rest) acc
  = Some (acc * 10 ^ Z.of_nat w + n mod 10 ^ Z.of_nat w, rest).
Proof.
  revert acc. induction w as [|w IH]; intros acc.
  - simpl. rewrite Z.mod_1_r. do 2 f_equal. lia.
  - cbn [zero_padded read_digits]. rewrite str_app_cons.
    rewrite digit_value_digit_char
      by (pose proof (Z.mod_pos_bound (n / 10 ^ Z.of_nat w) 10); lia).
    rewrite IH. do 2 f_equal.
    rewrite Nat2Z.inj_succ, Z.pow_succ_r by lia.
    rewrite (Z.mul_comm 10), Z.rem_mul_r by lia. lia.
Qed.

Lemma match_md_zero_padded m d :
  1 ≤ m ≤ 12 → 1 ≤ d ≤ 31 →
  match_md (zero_padded 2 m +:+ zero_padded 2 d) = Some (m, d, "").
Proof.
  intros Hm Hd.
  assert (Hmin : m ∈ seqZ 1 12) by (apply elem_of_seqZ; lia).
  assert (Hdin : d ∈ seqZ 1 31) by (apply elem_of_seqZ; lia).
  clear Hm Hd. intros. revert d Hdin. revert m Hmin.
  apply (Forall_forall (λ m, ∀ d, d ∈ seqZ 1 31 → _)).
  eapply Forall_impl; [| intros m H; apply Forall_forall, H].
  compute_done.
Qed.

Lemma valid_date_bounds d :
  valid_date d = true →
  1 ≤ year d ≤ 9999 ∧ 1 ≤ month d ≤ 12 ∧ 1 ≤ day d ≤ 31.
Proof.
  unfold valid_date, days_in_month. intros H.
  repeat (apply andb_prop in H as [H ?]).
  repeat case_match; lia.
Qed.

(** A date written with [%Y%m%d] has eight characters and reads back as
    itself. *)
Lemma strftime_Ymd_length d : String.length (strftime_Ymd d) = 8%nat.
Proof. unfold strftime_Ymd. by rewrite !str_length_app, !zero_padded_length. Qed.

(** The text is the numeral of year * 10000 + month * 100 + day, in eight
    digits. *)
Lemma strftime_Ymd_numeral d :
  valid_date d = true →
  strftime_Ymd d = zero_padded 8 (year d * 10000 + month d * 100 + day d).
Proof.
  intros (Hy & Hm & Hd)%valid_date_bounds.
  destruct d as [y m dd]. cbn [year month day] in *.
  unfold strftime_Ymd, zero_padded. cbn [year month day].
  rewrite !str_app_cons. cbn [String.append Z.of_nat Pos.of_succ_nat Pos.succ].
  change (10 ^ 0) with 1. change (10 ^ 1) with 10. change (10 ^ 2) with 100.
  change (10 ^ 3) with 1000. change (10 ^ 4) with 10000.
  change (10 ^ 5) with 100000. change (10 ^ 6) with 1000000.
  change (10 ^ 7) with 10000000.
  repeat (apply (f_equal2 String);
          [apply (f_equal digit_char); Z.div_mod_to_equations; lia |]).
  reflexivity.
Qed.

Lemma strptime_strftime_Ymd d :
  valid_date d = true → strptime_Ymd (strftime_Ymd d) = Some d.
Proof.
  intros Hv. destruct (valid_date_bounds d Hv) as (Hy & Hm & Hd).
  unfold strptime_Ymd, match_Ymd, strftime_Ymd.
  rewrite read_digits_zero_padded. cbn [mbind option_bind].
  rewrite match_md_zero_padded by done. cbn [mbind option_bind str_truthy].
  change (Z.of_nat 4) with 4. rewrite Z.mod_small by lia.
  replace (0 * 10 ^ 4 + year d) with (year d) by lia.
  destruct d as [y m dd]; simpl in *. by rewrite Hv.
Qed.

(** ** QueryBuilder *)

Lemma str_truthy_length s : str_truthy s = true ↔ 0 < len s.
Proof. unfold len. destruct s; cbn [str_truthy String.length]; split; (done || lia). Qed.

Lemma search_query_unfold s e m g b :
  search_query (Inputs s e m g b)
  = date_range (strftime_Ymd s) (strftime_Ymd e)
      +:+ manufacturer_clause m +:+ generic_clause g.
Proof. unfold search_query. cbn [start_date end_date manufacturer_name generic_name]. apply str_app_assoc. Qed.

Lemma search_query_no_generic s e m b :
  search_query (Inputs s e m "" b)
  = date_range (strftime_Ymd s) (strftime_Ymd e) +:+ manufacturer_clause m.
Proof. rewrite search_query_unfold. cbn [generic_clause str_truthy]. by rewrite str_app_nil_r. Qed.

Lemma search_query_generic s e m g b :
  search_query (Inputs s e m g b)
  = search_query (Inputs s e m "" b) +:+ generic_clause g.
Proof. by rewrite search_query_no_generic, search_query_unfold, str_app_assoc. Qed.

(** The script sends the expression it built, and only when the dates are
    in order. *)
Lemma script_sends i api :
  date_leb (start_date i) (end_date i) = true →
  fetch_button i = true →
  ∃ shown o, script i api = (http_get url (search_query i) 500 :: shown, o).
Proof.
  unfold date_leb, script. intros Hle ->.
  apply negb_true_iff in Hle as ->.
  destruct (gather api (search_query i)) as [[drug_data|]|[e| | | | | |]]; eauto.
  destruct (show drug_data); eauto.
Qed.

(** C6: for dates in order, the expression holds the range
    [effective_time:[START TO END]] where START and END are the two dates
    written as YYYYMMDD: the numeral of year * 10000 + month * 100 + day in
    eight digits, which reads back as the date; and this is the expression
    the script sends. *)
Theorem search_query_date_range (i : inputs) (api : registry) :
  valid_date (start_date i) = true →
  valid_date (end_date i) = true →
  date_leb (start_date i) (end_date i) = true →
  let start_str := strftime_Ymd (start_date i) in
  let end_str := strftime_Ymd (end_date i) in
  contains ("effective_time:[" +:+ start_str +:+ " TO " +:+ end_str +:+ "]")
    (search_query i)
  ∧ (start_str
     = zero_padded 8 (year (start_date i) * 10000 + month (start_date i) * 100
                      + day (start_date i))
     ∧ String.length start_str = 8%nat
     ∧ strptime_Ymd start_str = Some (start_date i))
  ∧ (end_str
     = zero_padded 8 (year (end_date i) * 10000 + month (end_date i) * 100
                      + day (end_date i))
     ∧ String.length end_str = 8%nat
     ∧ strptime_Ymd end_str = Some (end_date i))
  ∧ (fetch_button i = true →
     ∃ shown o, script i api = (http_get url (search_query i) 500 :: shown, o)).
Proof.
  intros Hs He Hle start_str end_str. split_and!.
  - destruct i as [s e m g b]. rewrite search_query_unfold.
    exists "", (manufacturer_clause m +:+ generic_clause g).
    cbn [start_date end_date] in *. unfold date_range.
    by rewrite !str_app_assoc.
  - by apply strftime_Ymd_numeral.
  - apply strftime_Ymd_length.
  - by apply strptime_strftime_Ymd.
  - by apply strftime_Ymd_numeral.
  - apply strftime_Ymd_length.
  - by apply strptime_strftime_Ymd.
  - intros Hb. by apply script_sends.
Qed.

(** C3: a generic name that is not empty adds one clause at the end of the
    expression: with more than 4 characters the exact match of the whole name
    in quotes, otherwise the wildcard on its first 4 characters (which is then
    the whole name). *)
Theorem generic_name_clause (s e : date) (m g : string) (b : bool) :
  str_truthy g = true →
  let q := search_query (Inputs s e m g b) in
  let without := search_query (Inputs s e m "" b) in
  (4 < len g →
     (let clause :=
        " AND openfda.generic_name.exact:" +:+ dquote +:+ g +:+ dquote in
      q = without +:+ clause ∧ contains clause q))
  ∧ (len g ≤ 4 →
     (let clause := " AND openfda.generic_name:" +:+ slice_to 4 g +:+ "*" in
      q = without +:+ clause ∧ contains clause q ∧ slice_to 4 g = g)).
Proof.
  intros Hg q without.
  assert (Hq : q = without +:+ generic_clause g) by apply search_query_generic.
  unfold generic_clause in Hq. rewrite Hg in Hq. split.
  - intros Hlen clause.
    assert ((4 <? len g) = true) as Hlt by (by apply Z.ltb_lt).
    rewrite Hlt in Hq. split; [done |].
    rewrite Hq. apply contains_app_r, ends_with_contains. by exists "".
  - intros Hlen clause.
    assert ((4 <? len g) = false) as Hlt by (apply Z.ltb_ge; lia).
    rewrite Hlt in Hq. split; [done |]. split.
    + rewrite Hq. apply contains_app_r, ends_with_contains. by exists "".
    + apply slice_to_all. unfold len in Hlen. lia.
Qed.

(** C7: a manufacturer name that is not empty adds, right after the date
    range, the clause on the manufacturer field made of its first 4 characters
    and the wildcard; when the name has more than 4 characters that prefix is
    not the name, and the clause is not the one the whole name would give. *)
Theorem manufacturer_clause_prefix (s e : date) (m g : string) (b : bool) :
  str_truthy m = true →
  let q := search_query (Inputs s e m g b) in
  let prefix := slice_to 4 m in
  let clause := " AND openfda.manufacturer_name:" +:+ prefix +:+ "*" in
  q = date_range (strftime_Ymd s) (strftime_Ymd e) +:+ clause +:+ generic_clause g
  ∧ contains clause q
  ∧ (∃ rest, m = prefix +:+ rest)
  ∧ len prefix = 4 `min` len m
  ∧ (4 < len m →
     prefix ≠ m ∧ clause ≠ " AND openfda.manufacturer_name:" +:+ m +:+ "*").
Proof.
  intros Hm q prefix clause.
  assert (Hq : q = date_range (strftime_Ymd s) (strftime_Ymd e)
                     +:+ clause +:+ generic_clause g).
  { unfold q. rewrite search_query_unfold. unfold manufacturer_clause.
    by rewrite Hm. }
  assert (Hlen : len prefix = 4 `min` len m).
  { unfold len, prefix. rewrite slice_to_length. lia. }
  split_and!.
  - done.
  - rewrite Hq. apply contains_middle.
  - apply slice_to_prefix.
  - done.
  - intros Hlong. split.
    + intros Heq. rewrite Heq in Hlen. lia.
    + intros Heq. unfold clause in Heq.
      apply (inj (String.append _)) in Heq.
      apply (f_equal String.length) in Heq.
      rewrite !str_length_app in Heq. unfold len in *. cbn in Heq. lia.
Qed.

(** ** MonthlyAggregator *)

Section groups.
Implicit Types (k key : Z) (n : nat) (groups : list (Z * nat)).
Implicit Types keys : list (option Z).

Lemma elem_of_tally_keys k key groups :
  k ∈ (tally key groups).*1 ↔ k = key ∨ k ∈ groups.*1.
Proof.
  induction groups as [|[k' n'] rest IH]; cbn [tally].
  - cbn. rewrite list_elem_of_singleton, elem_of_nil. tauto.
  - destruct (Z.ltb_spec key k').
    + rewrite (fmap_cons _ (key, _)), elem_of_cons. done.
    + destruct (Z.eqb_spec key k') as [->|].
      * rewrite !fmap_cons, !elem_of_cons. cbn. tauto.
      * rewrite !fmap_cons, !elem_of_cons, IH. cbn. tauto.
Qed.

Lemma tally_sorted key groups :
  StronglySorted Z.lt groups.*1 → StronglySorted Z.lt (tally key groups).*1.
Proof.
  induction groups as [|[k' n'] rest IH]; cbn [tally]; intros Hs.
  - repeat constructor.
  - rewrite fmap_cons in Hs. apply StronglySorted_inv in Hs as [Hs Hall].
    cbn [fst] in Hall.
    destruct (Z.ltb_spec key k').
    + rewrite !fmap_cons. constructor; [by constructor |].
      constructor; [done |]. eapply Forall_impl; [exact Hall |].
      cbn. intros; lia.
    + destruct (Z.eqb_spec key k') as [->|]; [by constructor |].
      rewrite fmap_cons. constructor; [by apply IH |].
      apply Forall_forall. intros k [->|Hk]%elem_of_tally_keys; [cbn; lia |].
      by eapply Forall_forall in Hall.
Qed.

Lemma bucket_absent key groups : key ∉ groups.*1 → bucket key groups = 0%nat.
Proof.
  induction groups as [|[k' n'] rest IH]; cbn [bucket]; [done |].
  rewrite fmap_cons, not_elem_of_cons. cbn. intros [Hne Hnot].
  destruct (Z.eqb_spec key k'); [done | by apply IH].
Qed.

Lemma tally_bucket k key groups :
  StronglySorted Z.lt groups.*1 →
  bucket k (tally key groups)
  = (bucket k groups + if bool_decide (k = key) then 1 else 0)%nat.
Proof.
  induction groups as [|[k' n'] rest IH]; cbn [tally]; intros Hs.
  - cbn [bucket]. case_bool_decide as Hk.
    + subst. by rewrite Z.eqb_refl.
    + by apply Z.eqb_neq in Hk as ->.
  - rewrite fmap_cons in Hs. apply StronglySorted_inv in Hs as [Hs Hall].
    cbn [fst] in Hall.
    destruct (Z.ltb_spec key k').
    + cbn [bucket]. case_bool_decide as Hk.
      * subst. rewrite Z.eqb_refl.
        destruct (Z.eqb_spec key k'); [lia |].
        rewrite bucket_absent; [done |].
        intros Hin. eapply Forall_forall in Hall; [| done]. lia.
      * apply Z.eqb_neq in Hk as ->. lia.
    + destruct (Z.eqb_spec key k') as [->|Hne].
      * cbn [bucket]. case_bool_decide as Hk.
        -- subst. rewrite Z.eqb_refl. lia.
        -- apply Z.eqb_neq in Hk as ->. lia.
      * cbn [bucket]. destruct (Z.eqb_spec k k') as [->|].
        -- rewrite bool_decide_eq_false_2 by done. lia.
        -- by apply IH.
Qed.

Lemma tally_positive key groups :
  Forall (λ kn, (0 < kn.2)%nat) groups →
  Forall (λ kn, (0 < kn.2)%nat) (tally key groups).
Proof.
  induction groups as [|[k' n'] rest IH]; cbn [tally]; intros Hpos.
  - repeat constructor.
  - apply Forall_cons in Hpos as [Hn Hpos]. repeat case_match.
    + constructor; [cbn; lia |]. by constructor.
    + constructor; [cbn; lia | done].
    + constructor; [done | by apply IH].
Qed.

Lemma tally_sum key groups :
  sum_list_with snd (tally key groups) = S (sum_list_with snd groups).
Proof.
  induction groups as [|[k' n'] rest IH]; cbn [tally]; [done |].
  repeat case_match; cbn [sum_list_with snd]; [done | done |].
  rewrite IH. lia.
Qed.

(** In a list of groups with distinct positive counts per key, the groups
    are the keys with a count that is not zero. *)
Lemma elem_of_groups k n groups :
  StronglySorted Z.lt groups.*1 →
  Forall (λ kn, (0 < kn.2)%nat) groups →
  (k, n) ∈ groups ↔ n ≠ 0%nat ∧ bucket k groups = n.
Proof.
  induction groups as [|[k' n'] rest IH]; intros Hs Hpos.
  - cbn [bucket]. split; [by intros ?%elem_of_nil | intros []; congruence].
  - rewrite fmap_cons in Hs. apply StronglySorted_inv in Hs as [Hs Hall].
    apply Forall_cons in Hpos as [Hn Hpos]. cbn [fst snd] in *.
    rewrite elem_of_cons, (IH Hs Hpos). cbn [bucket].
    destruct (Z.eqb_spec k k') as [->|Hne].
    + rewrite bucket_absent.
      * split; [intros [[= ->]|[]] | intros [? ->]]; try done.
        -- split; [lia | done].
        -- by left.
      * intros Hin. eapply Forall_forall in Hall; [| done]. lia.
    + split; [intros [[= ]|] | intros; right]; done.
Qed.

Lemma groupby_size_sorted keys : StronglySorted Z.lt (groupby_size keys).*1.
Proof.
  induction keys as [|[k|] keys IH]; cbn [groupby_size foldr].
  - constructor.
  - by apply tally_sorted.
  - done.
Qed.

Lemma groupby_size_positive keys :
  Forall (λ kn, (0 < kn.2)%nat) (groupby_size keys).
Proof.
  induction keys as [|[k|] keys IH]; cbn [groupby_size foldr].
  - constructor.
  - by apply tally_positive.
  - done.
Qed.

(** The count of a key is the number of rows that have it. *)
Lemma groupby_size_bucket k keys :
  bucket k (groupby_size keys) = length (filter (λ x, x = Some k) keys).
Proof.
  induction keys as [|[k'|] keys IH]; cbn [groupby_size foldr].
  - done.
  - rewrite tally_bucket by apply groupby_size_sorted.
    fold (groupby_size keys). rewrite IH, filter_cons.
    case_bool_decide as Hk; case_decide as Hk'; simplify_eq; cbn; lia.
  - fold (groupby_size keys). rewrite IH, filter_cons.
    by case_decide.
Qed.

(** The counts add up to the number of rows that have a key. *)
Lemma groupby_size_sum keys :
  sum_list_with snd (groupby_size keys) = length (filter is_Some keys).
Proof.
  induction keys as [|[k|] keys IH]; cbn [groupby_size foldr].
  - done.
  - rewrite tally_sum. fold (groupby_size keys). rewrite IH, filter_cons.
    case_decide as Hk; [done |]. destruct Hk. by eexists.
  - fold (groupby_size keys). rewrite IH, filter_cons.
    case_decide as Hk; [| done]. by destruct Hk.
Qed.
End groups.


Lemma period_year_month y m :
  1 ≤ m ≤ 12 →
  period_year (period y m) = y ∧ period_month (period y m) = m.
Proof.
  unfold period, period_year, period_month. intros Hm.
  assert (((y - 1970) * 12 + (m - 1)) / 12 = y - 1970) as Hdiv.
  { symmetry. apply Z.div_unique with (r := m - 1); lia. }
  assert (((y - 1970) * 12 + (m - 1)) mod 12 = m - 1) as Hmod.
  { symmetry. apply Z.mod_unique with (q := y - 1970); lia. }
  rewrite Hdiv, Hmod. lia.
Qed.

Lemma aggregate_cons row rows :
  aggregate (row :: rows)
  = match approval_month row with
    | Some k => tally k (aggregate rows)
    | None => aggregate rows
    end.
Proof. reflexivity. Qed.

Lemma aggregate_keys rows :
  to_period_M (NormalizedRow.effective_time <$> rows) = approval_month <$> rows.
Proof. unfold to_period_M. by rewrite <- list_fmap_compose. Qed.

Lemma aggregate_bucket k rows :
  bucket k (aggregate rows)
  = length (filter (λ row, approval_month row = Some k) rows).
Proof.
  unfold aggregate. rewrite groupby_size_bucket, aggregate_keys.
  induction rows as [|row rows IH]; [done |].
  rewrite fmap_cons, !filter_cons.
  repeat case_decide; cbn [length]; (done || by rewrite IH).
Qed.

(** The counts are those of the aggregator on the rows of the table. *)
Lemma analyse_counts drug_data :
  (analyse drug_data).2 = aggregate (row_of_entry <$> drug_data).
Proof.
  unfold analyse, aggregate, to_datetime. cbn [snd]. do 2 f_equal.
  rewrite <- !list_fmap_compose. reflexivity.
Qed.


(** C10: the counts of the buckets add up to the number of rows that have
    a date; no month has two buckets, and every row with a date has its month
    among them. *)
Theorem aggregate_total (rows : list NormalizedRow.t) :
  sum_list_with snd (aggregate rows)
  = length (filter (λ row, is_Some (NormalizedRow.effective_time row)) rows)
  ∧ NoDup (aggregate rows).*1
  ∧ (∀ row d,
       row ∈ rows → NormalizedRow.effective_time row = Some d →
       ∃ n, (period (year d) (month d), n) ∈ aggregate rows ∧ (0 < n)%nat).
Proof.
  split_and!.
  - induction rows as [|row rows IH]; [done |].
    rewrite aggregate_cons, filter_cons. unfold approval_month.
    destruct (NormalizedRow.effective_time row) as [d|]; cbn [to_period_cell].
    + rewrite tally_sum, IH. case_decide as Hd; [done |].
      destruct Hd. by eexists.
    + rewrite IH. case_decide as Hd; [| done]. by destruct Hd.
  - pose proof (groupby_size_sorted
      (to_period_M (NormalizedRow.effective_time <$> rows))) as Hs.
    fold (aggregate rows) in Hs. revert Hs.
    generalize ((aggregate rows).*1). intros l Hs.
    induction Hs as [|k l Hs IH Hall]; constructor; [| done].
    intros Hin. eapply Forall_forall in Hall; [| done]. lia.
  - intros row d Hin Hd.
    exists (length (filter
      (λ row, approval_month row = Some (period (year d) (month d))) rows)).
    assert (0 < length (filter
      (λ row, approval_month row = Some (period (year d) (month d))) rows))%nat
      as Hpos.
    { assert (row ∈ filter
        (λ row, approval_month row = Some (period (year d) (month d))) rows)
        as Hrow.
      { apply list_elem_of_filter. split; [| done].
        unfold approval_month. by rewrite Hd. }
      destruct (filter _ rows); [by apply elem_of_nil in Hrow | cbn; lia]. }
    split; [| done].
    unfold aggregate at 1.
    rewrite elem_of_groups
      by (apply groupby_size_sorted || apply groupby_size_positive).
    fold (aggregate rows). rewrite aggregate_bucket. split; [lia | done].
Qed.

(** ** RecordNormalizer *)

Lemma normalize_effective_time fields row :
  normalize (JObj fields) = Ok row →
  NormalizedRow.effective_time row
  = to_datetime_cell (default NA (fields !! "effective_time")).
Proof.
  unfold normalize, drug_dict. cbn [mbind result_bind mret result_ret].
  destruct (openfda_first _ "brand_name"); [| done].
  destruct (openfda_first _ "generic_name"); [| done].
  destruct (openfda_first _ "manufacturer_name"); [| done].
  cbn. by intros [= <-].
Qed.

(** A record without [openfda] gives the sentinel three times. *)
Lemma normalize_without_openfda fields :
  fields !! "openfda" = None →
  normalize (JObj fields)
  = Ok (NormalizedRow.Make NA NA NA
          (to_datetime_cell (default NA (fields !! "effective_time")))).
Proof.
  intros Hno. unfold normalize, drug_dict, openfda_first.
  cbn [py_get mbind result_bind]. rewrite Hno. reflexivity.
Qed.

(** On a record whose three fields are each absent or a list that is not
    empty, the normaliser does not fail: it takes the first item, or the
    sentinel. *)
Lemma normalize_degrades fields openfda :
  default (JObj ∅) (fields !! "openfda") = JObj openfda →
  absent_or_nonempty (openfda !! "brand_name") →
  absent_or_nonempty (openfda !! "generic_name") →
  absent_or_nonempty (openfda !! "manufacturer_name") →
  normalize (JObj fields)
  = Ok (NormalizedRow.Make
          (first_or_NA (openfda !! "brand_name"))
          (first_or_NA (openfda !! "generic_name"))
          (first_or_NA (openfda !! "manufacturer_name"))
          (to_datetime_cell (default NA (fields !! "effective_time")))).
Proof.
  intros Ho Hb Hg Hm. unfold normalize, drug_dict, openfda_first.
  cbn [py_get mbind result_bind]. rewrite Ho. cbn [py_get].
  destruct Hb as [->|(? & ? & ->)], Hg as [->|(? & ? & ->)],
    Hm as [->|(? & ? & ->)]; reflexivity.
Qed.

(** C1: the record whose [openfda.brand_name] is an empty list makes the
    normaliser raise [IndexError]; in the script nothing catches it, so the
    run ends on it after the request, with nothing shown. *)
Theorem normalize_empty_sequence_raises :
  normalize empty_brand_record = Raise IndexError
  ∧ script sample_inputs (always (found [advil_record; empty_brand_record]))
    = ([http_get url "effective_time:[20241001 TO 20241030]" 500],
       Uncaught IndexError).
Proof. split; vm_compute; reflexivity. Qed.

(** Four digits after the year: they read as a month and a day, with
    nothing left over, exactly when they are two digits of a month and two
    digits of a day. *)
Lemma match_md_digits m d :
  0 ≤ m ≤ 99 → 0 ≤ d ≤ 99 →
  match_md (zero_padded 2 m +:+ zero_padded 2 d)
    ≫= (λ '(m', d', rest), if str_truthy rest then None else Some (m', d'))
  = if (1 <=? m) && (m <=? 12) && (1 <=? d) && (d <=? 31)
    then Some (m, d) else None.
Proof.
  intros Hm Hd.
  assert (Hmin : m ∈ seqZ 0 100) by (apply elem_of_seqZ; lia).
  assert (Hdin : d ∈ seqZ 0 100) by (apply elem_of_seqZ; lia).
  clear Hm Hd. revert d Hdin. revert m Hmin.
  apply (Forall_forall (λ m, ∀ d, d ∈ seqZ 0 100 → _)).
  eapply Forall_impl; [| intros m H; apply Forall_forall, H].
  compute_done.
Qed.

(** Every day of the years 1678 to 2261 is one a timestamp holds. *)
Lemma in_Timestamp_range_year y m d :
  1678 ≤ y ≤ 2261 → in_Timestamp_range (Date y m d) = true.
Proof.
  intros Hy. unfold in_Timestamp_range, date_leb, date_ltb.
  cbn [year month day Timestamp_first_day Timestamp_last_day].
  apply andb_true_iff. split; apply negb_true_iff, orb_false_iff;
    (split; [lia |]); apply andb_false_iff; left; lia.
Qed.

(** A text of eight digits, in the years a timestamp holds throughout, is
    read as the date it spells when that is a day of the calendar, and as no
    date otherwise. *)
Lemma to_datetime_cell_digits y m d :
  1678 ≤ y ≤ 2261 → 0 ≤ m ≤ 99 → 0 ≤ d ≤ 99 →
  to_datetime_cell
    (JStr (zero_padded 4 y +:+ zero_padded 2 m +:+ zero_padded 2 d))
  = if valid_date (Date y m d) then Some (Date y m d) else None.
Proof.
  intros Hy Hm Hd. pose proof (match_md_digits m d Hm Hd) as Hmd.
  unfold to_datetime_cell, strptime_Ymd, match_Ymd.
  cbn [mbind option_bind]. rewrite read_digits_zero_padded.
  cbn [mbind option_bind]. change (Z.of_nat 4) with 4.
  rewrite Z.mod_small by lia.
  replace (0 * 10 ^ 4 + y) with y by lia.
  destruct (match_md _) as [[[m' d'] rest]|]; cbn [mbind option_bind] in *.
  - destruct (str_truthy rest).
    + destruct (valid_date (Date y m d)) eqn:Hv; [| done].
      apply valid_date_bounds in Hv. cbn [year month day] in Hv.
      destruct ((1 <=? m) && (m <=? 12) && (1 <=? d) && (d <=? 31)) eqn:Hb;
        [done | lia].
    + destruct ((1 <=? m) && (m <=? 12) && (1 <=? d) && (d <=? 31)) eqn:Hb.
      * injection Hmd as -> ->.
        destruct (valid_date (Date y m d)) eqn:Hv; [| done].
        cbn [mbind option_bind]. by rewrite in_Timestamp_range_year.
      * done.
  - destruct (valid_date (Date y m d)) eqn:Hv; [| done].
    apply valid_date_bounds in Hv. cbn [year month day] in Hv.
    destruct ((1 <=? m) && (m <=? 12) && (1 <=? d) && (d <=? 31)) eqn:Hb;
      [done | lia].
Qed.

Lemma to_datetime_cell_strftime d :
  valid_date d = true → in_Timestamp_range d = true →
  to_datetime_cell (JStr (strftime_Ymd d)) = Some d.
Proof.
  intros Hv Hr. unfold to_datetime_cell. cbn [mbind option_bind].
  rewrite strptime_strftime_Ymd by done. cbn [mbind option_bind].
  by rewrite Hr.
Qed.

(** C5: the date of a row is the cell of [effective_time] (the sentinel
    when the record has none) parsed with [%Y%m%d].  A date comes out only
    when the text parses to it, and what does not parse gives no date, the
    sentinel included, never a string.  Every day a timestamp holds, written
    as YYYYMMDD, is read as that day; eight digits that spell no day of the
    calendar are read as no date.  So 20241015 gives the 15th of October 2024
    and bad-date gives no date, next to three names that are the sentinel. *)
Theorem normalize_parses_effective_time :
  (∀ fields row,
     normalize (JObj fields) = Ok row →
     NormalizedRow.effective_time row
     = to_datetime_cell (default NA (fields !! "effective_time")))
  ∧ (∀ s d, to_datetime_cell (JStr s) = Some d → strptime_Ymd s = Some d)
  ∧ (∀ s, strptime_Ymd s = None → to_datetime_cell (JStr s) = None)
  ∧ (∀ d,
       valid_date d = true →
       in_Timestamp_range d = true →
       to_datetime_cell (JStr (strftime_Ymd d)) = Some d
       ∧ normalize (JObj {[ "effective_time" := JStr (strftime_Ymd d) ]})
         = Ok (NormalizedRow.Make NA NA NA (Some d)))
  ∧ (∀ y m d,
       1678 ≤ y ≤ 2261 → 0 ≤ m ≤ 99 → 0 ≤ d ≤ 99 →
       to_datetime_cell
         (JStr (zero_padded 4 y +:+ zero_padded 2 m +:+ zero_padded 2 d))
       = if valid_date (Date y m d) then Some (Date y m d) else None)
  ∧ to_datetime_cell NA = None
  ∧ to_datetime_cell (JStr "") = None
  ∧ to_datetime_cell (JStr "2024-10-15") = None
  ∧ to_datetime_cell (JStr "20241015x") = None
  ∧ to_datetime_cell (JStr "20230229") = None
  ∧ to_datetime_cell (JStr "20240229") = Some (Date 2024 2 29)
  ∧ to_datetime_cell (JStr "19000229") = None
  ∧ to_datetime_cell (JStr "20000229") = Some (Date 2000 2 29)
  ∧ normalize (JObj {[ "effective_time" := JStr "20241015" ]})
    = Ok (NormalizedRow.Make NA NA NA (Some (Date 2024 10 15)))
  ∧ normalize (JObj {[ "effective_time" := JStr "bad-date" ]})
    = Ok (NormalizedRow.Make NA NA NA None).
Proof.
  split_and!.
  - apply normalize_effective_time.
  - intros s d. unfold to_datetime_cell. cbn [mbind option_bind].
    destruct (strptime_Ymd s) as [d'|]; [| done]. cbn [mbind option_bind].
    case_match; naive_solver.
  - intros s Hs. unfold to_datetime_cell. cbn [mbind option_bind].
    by rewrite Hs.
  - intros d Hv Hr. split; [by apply to_datetime_cell_strftime |].
    rewrite normalize_without_openfda by done.
    rewrite lookup_singleton_eq.
    change (default NA (Some ?v)) with v.
    by rewrite to_datetime_cell_strftime.
  - apply to_datetime_cell_digits.
  - reflexivity.
  - reflexivity.
  - vm_compute. reflexivity.
  - vm_compute. reflexivity.
  - vm_compute. reflexivity.
  - vm_compute. reflexivity.
  - vm_compute. reflexivity.
  - vm_compute. reflexivity.
  - vm_compute. reflexivity.
  - vm_compute. reflexivity.
Qed.

(** ** The table and the export *)

(** Line 83 reads the column line 80 made, and line 84 the column line 83
    stored. *)
Lemma getitem_Effective_Time_raw drug_data :
  getitem (pd_DataFrame drug_data) "Effective Time"
  = Some (ObjectSeries (Effective_Time <$> drug_data)).
Proof. reflexivity. Qed.

Lemma getitem_Effective_Time drug_data column :
  getitem (setitem (pd_DataFrame drug_data) "Effective Time" column)
    "Effective Time"
  = Some column.
Proof. reflexivity. Qed.

(** The table after line 84: five columns. *)
Lemma analyse_table drug_data :
  (analyse drug_data).1
  = [("Brand Name", ObjectSeries (Brand_Name <$> drug_data));
     ("Generic Name", ObjectSeries (Generic_Name <$> drug_data));
     ("Manufacturer Name", ObjectSeries (Manufacturer_Name <$> drug_data));
     ("Effective Time",
      DatetimeSeries (to_datetime (Effective_Time <$> drug_data)));
     ("Approval Month",
      PeriodSeries (to_period_M (to_datetime (Effective_Time <$> drug_data))))].
Proof. reflexivity. Qed.

Lemma analyse_records drug_data :
  csv_records (to_csv false (analyse drug_data).1)
  = csv_record ∘ row_of_entry <$> drug_data.
Proof.
  rewrite analyse_table. unfold to_csv, nrows, series_cells.
  cbn [csv_records]. rewrite !length_fmap.
  apply list_eq. intros i. rewrite !list_lookup_fmap.
  destruct (drug_data !! i) as [entry|] eqn:Hi.
  - rewrite lookup_seq_lt by by eapply lookup_lt_Some.
    cbn [fmap option_fmap option_map]. f_equal.
    unfold row_at, to_period_M, to_datetime.
    cbn [fmap list_fmap snd series_cells Nat.add].
    rewrite !list_lookup_fmap, Hi. reflexivity.
  - rewrite lookup_seq_ge by by apply lookup_ge_None.
    reflexivity.
Qed.

Lemma tally_not_nil key groups : tally key groups ≠ [].
Proof. destruct groups as [|[k n] rest]; cbn [tally]; [done |]. by repeat case_match. Qed.

(** No group at all: no row has a key. *)
Lemma groupby_size_nil keys :
  groupby_size keys = [] ↔ Forall (λ key, key = None) keys.
Proof.
  induction keys as [|[k|] keys IH]; cbn [groupby_size foldr].
  - by split.
  - split; [by intros ?%tally_not_nil | by intros [[=] _]%Forall_cons].
  - fold (groupby_size keys). rewrite IH. split; [by constructor |].
    by intros [_ ?]%Forall_cons.
Qed.

(** The chart has no bar exactly when no record has a date. *)
Lemma analyse_counts_nil drug_data :
  (analyse drug_data).2 = []
  ↔ Forall (λ entry, to_datetime_cell (Effective_Time entry) = None) drug_data.
Proof.
  unfold analyse. cbn [snd]. rewrite groupby_size_nil.
  unfold to_period_M, to_datetime. rewrite !Forall_fmap.
  apply Forall_iff. intros entry. cbn.
  by destruct (to_datetime_cell (Effective_Time entry)).
Qed.

(** What is shown: with a date somewhere, the table, the chart and the
    download; without, the table, and the run ends on the plot. *)
Lemma show_dated drug_data :
  (analyse drug_data).2 ≠ [] →
  show drug_data
  = ([st_dataframe (analyse drug_data).1;
      st_subheader "Monthly Drug Approvals";
      st_pyplot (analyse drug_data).2;
      st_download_button "Download data as CSV"
        (to_csv false (analyse drug_data).1) "drug_labels.csv" "text/csv"],
     Completed).
Proof.
  unfold show. destruct (analyse drug_data) as [df [|group groups]]; [done |].
  reflexivity.
Qed.

Lemma show_undated drug_data :
  (analyse drug_data).2 = [] →
  show drug_data
  = ([st_dataframe (analyse drug_data).1;
      st_subheader "Monthly Drug Approvals"],
     Uncaught IndexError).
Proof.
  unfold show. destruct (analyse drug_data) as [df [|group groups]]; [| done].
  reflexivity.
Qed.

Lemma show_downloads drug_data :
  (analyse drug_data).2 ≠ [] →
  downloads (show drug_data).1 = [to_csv false (analyse drug_data).1].
Proof. intros Hdated. by rewrite show_dated. Qed.

Lemma mapM_result_length {A B} (f : A → result B) l k :
  mapM f l = Ok k → length k = length l.
Proof.
  revert k. induction l as [|x l IH]; intros k; cbn [mapM].
  - by intros [= <-].
  - destruct (f x) as [y|]; [| done]. cbn [mbind result_bind].
    destruct (mapM f l) as [k'|]; [| done]. cbn.
    intros [= <-]. cbn [length]. by rewrite (IH k').
Qed.

(** When line 80 runs, [drug_data] has an entry. *)
Lemma build_drug_data_nonempty results drug_data :
  py_truthy results = true →
  build_drug_data results = Ok drug_data →
  drug_data ≠ [].
Proof.
  unfold build_drug_data. intros Htruthy Hbuild.
  destruct (py_iter results) as [drugs|] eqn:Hiter; [| done].
  cbn [mbind result_bind] in Hbuild.
  apply mapM_result_length in Hbuild.
  assert (drugs ≠ []) as Hdrugs.
  { destruct results as [| | |s|[|]|fields];
      cbn [py_truthy py_iter] in Htruthy, Hiter;
      try done; injection Hiter as <-.
    - by destruct s.
    - done.
    - apply negb_true_iff, bool_decide_eq_false in Htruthy.
      intros Hnil%fmap_nil_inv. apply Htruthy.
      by rewrite <- length_map_to_list, Hnil. }
  intros ->. by destruct drugs.
Qed.

Lemma gather_Some api search drug_data :
  gather api search = Ok (Some drug_data) →
  ∃ results,
    fetch api search = Ok results
    ∧ py_truthy results = true
    ∧ build_drug_data results = Ok drug_data.
Proof.
  unfold gather. destruct (fetch api search) as [results|]; [| done].
  cbn [mbind result_bind]. destruct (py_truthy results) eqn:Htruthy; [| done].
  destruct (build_drug_data results) as [drug_data'|] eqn:Hbuild; [| done].
  cbn. intros [= <-]. by exists results.
Qed.

(** Every export the script offers is the one of the table made from the
    records of the reply, of which one at least has a date. *)
Lemma script_download i api csv :
  csv ∈ downloads (script i api).1 →
  ∃ results drug_data,
    fetch api (search_query i) = Ok results
    ∧ build_drug_data results = Ok drug_data
    ∧ drug_data ≠ []
    ∧ (analyse drug_data).2 ≠ []
    ∧ csv = to_csv false (analyse drug_data).1.
Proof.
  unfold script.
  destruct (date_ltb (end_date i) (start_date i));
    [cbn; by intros ?%elem_of_nil |].
  destruct (fetch_button i); [| cbn; by intros ?%elem_of_nil].
  destruct (gather api (search_query i)) as [[drug_data|]|e] eqn:Hgather.
  - apply gather_Some in Hgather as (results & Hfetch & Htruthy & Hbuild).
    destruct (decide ((analyse drug_data).2 = [])) as [Hnil|Hdated].
    + rewrite show_undated by done. cbn. by intros ?%elem_of_nil.
    + rewrite show_dated by done. cbn. intros ->%list_elem_of_singleton.
      exists results, drug_data. split_and!; try done.
      by eapply build_drug_data_nonempty.
  - cbn. by intros ?%elem_of_nil.
  - destruct e as [e| | | | | |]; cbn; by intros ?%elem_of_nil.
Qed.

(** C2 as the script has it: the export has one record per row, in the
    order of the rows and without a row number, under a header of five labels:
    the four of the row and [Approval Month], the column line 84 added to the
    table before the export; it is the export offered when a row has a date,
    and every export a run offers is made this way from the records of the
    reply. *)
Theorem csv_export_rows :
  (∀ drug_data : list drug_entry,
     let csv := to_csv false (analyse drug_data).1 in
     ((analyse drug_data).2 ≠ [] → downloads (show drug_data).1 = [csv])
     ∧ csv_header csv
       = ["Brand Name"; "Generic Name"; "Manufacturer Name"; "Effective Time";
          "Approval Month"]
     ∧ csv_records csv = csv_record ∘ row_of_entry <$> drug_data
     ∧ length (csv_records csv) = length drug_data
     ∧ Forall (λ record, length record = 5%nat ∧ ∀ i, IndexCell i ∉ record)
         (csv_records csv))
  ∧ (∀ i api csv,
       csv ∈ downloads (script i api).1 →
       ∃ results drug_data,
         fetch api (search_query i) = Ok results
         ∧ build_drug_data results = Ok drug_data
         ∧ drug_data ≠ []
         ∧ csv = to_csv false (analyse drug_data).1).
Proof.
  split.
  2: { intros i api csv (results & drug_data & ? & ? & ? & _ & ?)%script_download.
       by exists results, drug_data. }
  intros drug_data csv. split_and!.
  - apply show_downloads.
  - reflexivity.
  - apply analyse_records.
  - unfold csv. by rewrite analyse_records, length_fmap.
  - unfold csv. rewrite analyse_records. apply Forall_fmap, Forall_true.
    intros entry. split; [done |].
    intros i Hin. unfold csv_record, compose in Hin.
    repeat (apply elem_of_cons in Hin as [Hin|Hin]; [done |]).
    by apply elem_of_nil in Hin.
Qed.

(** C2 as stated fails: one record found, and the header of the export has
    a fifth label. *)
Lemma csv_header_has_approval_month :
  (csv_header <$> downloads (script sample_inputs (always (found [advil_record]))).1)
  = [["Brand Name"; "Generic Name"; "Manufacturer Name"; "Effective Time";
      "Approval Month"]]
  ∧ (csv_header <$> downloads (script sample_inputs (always (found [advil_record]))).1)
    ≠ [["Brand Name"; "Generic Name"; "Manufacturer Name"; "Effective Time"]].
Proof. split; [vm_compute; reflexivity | vm_compute; discriminate]. Qed.

(** ** The script: validation, fetch and its failures *)

Lemma py_get_not_request v key default_ :
  ¬ raises_request_exception (py_get v key default_).
Proof. intros [e He]. by destruct v. Qed.

Lemma py_first_not_request v : ¬ raises_request_exception (py_first v).
Proof. intros [e He]. by destruct v as [| | |[|]|[|]|]. Qed.

Lemma bind_not_request {A B} (m : result A) (f : A → result B) :
  ¬ raises_request_exception m →
  (∀ a, ¬ raises_request_exception (f a)) →
  ¬ raises_request_exception (m ≫= f).
Proof.
  intros Hm Hf [e He]. destruct m as [a|e']; cbn in He.
  - apply (Hf a). by exists e.
  - apply Hm. exists e. congruence.
Qed.

Lemma openfda_first_not_request drug field :
  ¬ raises_request_exception (openfda_first drug field).
Proof.
  unfold openfda_first.
  apply bind_not_request; [apply py_get_not_request | intros openfda].
  apply bind_not_request; [apply py_get_not_request | intros values].
  apply py_first_not_request.
Qed.

Lemma drug_dict_not_request drug : ¬ raises_request_exception (drug_dict drug).
Proof.
  unfold drug_dict.
  repeat (apply bind_not_request;
          [first [apply openfda_first_not_request | apply py_get_not_request]
          | intros ?]).
  by intros [e He].
Qed.

Lemma build_drug_data_not_request results :
  ¬ raises_request_exception (build_drug_data results).
Proof.
  unfold build_drug_data. apply bind_not_request.
  - intros [e He]. by destruct results.
  - intros drugs. induction drugs as [|drug drugs IH].
    + by intros [e He].
    + cbn [mapM].
      apply bind_not_request; [apply drug_dict_not_request | intros entry].
      apply bind_not_request; [apply IH | intros entries].
      by intros [e He].
Qed.

(** The [try] ends in the [except] clause exactly on a rejected reply. *)
Lemma gather_rejected api search :
  raises_request_exception (gather api search)
  ↔ rejected (api url search 500).
Proof.
  unfold gather, fetch, requests_get, rejected.
  destruct (api url search 500) as [detail|resp]; cbn [mbind result_bind].
  - split; [by left; eexists | by intros; eexists].
  - unfold raise_for_status, response_json.
    destruct ((400 <=? status_code resp) && (status_code resp <? 600))
      eqn:Hstatus; cbn [mbind result_bind].
    + split; [intros _ | by intros; eexists].
      right. exists resp. split; [done | left]. lia.
    + destruct (body resp) as [data| | |] eqn:Hbody; cbn [mbind result_bind].
      * split.
        -- intros Hraise. exfalso. revert Hraise.
           apply bind_not_request; [apply py_get_not_request | intros results].
           destruct (py_truthy results); [| by intros [e He]].
           apply bind_not_request;
             [apply build_drug_data_not_request | by intros ? [e He]].
        -- intros [[? [=]]|(resp' & [= <-] & [?|?])]; [lia | congruence].
      * split; [intros _ | by intros; eexists].
        right. exists resp. split; [done | by right].
      * split; [by intros [e [=]] |].
        intros [[? [=]]|(resp' & [= <-] & [?|?])]; [lia | congruence].
      * split; [by intros [e [=]] |].
        intros [[? [=]]|(resp' & [= <-] & [?|?])]; [lia | congruence].
Qed.

(** Showing the table shows no error message. *)
Lemma show_no_error drug_data m : st_error m ∉ (show drug_data).1.
Proof.
  destruct (decide ((analyse drug_data).2 = [])) as [Hnil|Hdated].
  - rewrite show_undated by done. cbn. intros Hin.
    repeat (apply elem_of_cons in Hin as [Hin|Hin]; [done |]).
    by apply elem_of_nil in Hin.
  - rewrite show_dated by done. cbn. intros Hin.
    repeat (apply elem_of_cons in Hin as [Hin|Hin]; [done |]).
    by apply elem_of_nil in Hin.
Qed.

(** What a run with the dates in order and the button pressed shows, by
    the way the [try] ends. *)
Lemma script_fetching i api :
  date_leb (start_date i) (end_date i) = true →
  fetch_button i = true →
  script i api
  = let sent := http_get url (search_query i) 500 in
    match gather api (search_query i) with
    | Ok (Some drug_data) =>
        (sent :: (show drug_data).1, (show drug_data).2)
    | Ok None => ([sent; no_labels_found], Completed)
    | Raise (RequestException e) => ([sent; fetch_error e], Completed)
    | Raise e => ([sent], Uncaught e)
    end.
Proof.
  unfold date_leb, script. intros Hle ->.
  apply negb_true_iff in Hle as ->. cbn zeta.
  destruct (gather api (search_query i)) as [[drug_data|]|e]; try done.
  by destruct (show drug_data).
Qed.

Lemma script_reports i api :
  date_leb (start_date i) (end_date i) = true →
  fetch_button i = true →
  network_error_reported (script i api).1
  ↔ raises_request_exception (gather api (search_query i)).
Proof.
  intros Hle Hb. rewrite script_fetching by done. cbn zeta.
  destruct (gather api (search_query i)) as [[drug_data|]|e] eqn:Hgather.
  - split; [| by intros [e He]].
    intros [e He]. cbn [fst] in He.
    apply elem_of_cons in He as [He|He]; [done |].
    by apply show_no_error in He.
  - split; [| by intros [e He]].
    intros [e He]. cbn [fst] in He.
    repeat (apply elem_of_cons in He as [He|He]; [done |]).
    by apply elem_of_nil in He.
  - destruct e as [e| | | | | |];
      (split; [| first [by intros [e' [= ]] | intros _]]).
    2: { exists e. cbn. apply elem_of_cons. right. by apply elem_of_cons; left. }
    all: intros [e' He]; cbn [fst] in He.
    1: by exists e.
    all: apply elem_of_cons in He as [He|He]; [done |];
         by apply elem_of_nil in He.
Qed.

(** C8 as the script has it: with the dates in order and the button
    pressed, the error of the fetch is reported exactly when the request fails
    below HTTP, or comes back with a status from 400 to 599, or with a body
    that is not JSON; then the run shows that message and nothing else.  A
    reply with another status whose body is an object without [results], or
    with an empty list there, gives the message that nothing was found. *)
Theorem fetch_error_iff (i : inputs) (api : registry) :
  date_leb (start_date i) (end_date i) = true →
  fetch_button i = true →
  let sent := http_get url (search_query i) 500 in
  let r := api url (search_query i) 500 in
  (network_error_reported (script i api).1 ↔ rejected r)
  ∧ (network_error_reported (script i api).1 →
     ∃ e, script i api = ([sent; fetch_error e], Completed))
  ∧ (∀ resp fields,
       r = Replied resp →
       ¬ (400 ≤ status_code resp < 600) →
       body resp = Decoded (JObj fields) →
       fields !! "results" = None ∨ fields !! "results" = Some (JArr []) →
       script i api = ([sent; no_labels_found], Completed)).
Proof.
  intros Hle Hb sent r. split_and!.
  - rewrite script_reports by done. apply gather_rejected.
  - intros [e He]%script_reports; [| done..]. exists e.
    rewrite script_fetching by done. cbn zeta. by rewrite He.
  - intros resp fields Hr Hstatus Hbody Hresults.
    rewrite script_fetching by done. cbn zeta.
    unfold gather, fetch, requests_get. fold r. rewrite Hr.
    cbn [mbind result_bind]. unfold raise_for_status, response_json.
    rewrite Hbody.
    destruct ((400 <=? status_code resp) && (status_code resp <? 600))
      eqn:Hs; [lia |].
    cbn [mbind result_bind py_get].
    by destruct Hresults as [-> | ->].
Qed.

(** C8 as stated fails: the registry answers 200 with a body that is not
    JSON, and the error of the fetch is reported, although the transport did
    not fail and the status is the one of success.  The other way round, a
    reply with status 300, which [raise_for_status] lets through, is shown as
    a table and no error is reported. *)
Lemma undecodable_body_is_reported :
  script sample_inputs (always (Replied (Response 200 NotJSON)))
  = ([http_get url "effective_time:[20241001 TO 20241030]" 500;
      fetch_error JSONDecodeError], Completed)
  ∧ network_error_reported
      (script sample_inputs (always (Replied (Response 200 NotJSON)))).1
  ∧ always (Replied (Response 200 NotJSON)) url (search_query sample_inputs) 500
    = Replied (Response 200 NotJSON)
  ∧ ¬ network_error_reported
        (script sample_inputs
           (always (Replied (Response 300
              (Decoded (JObj {[ "results" := JArr [advil_record] ]})))))).1.
Proof.
  split_and!; [reflexivity | | reflexivity |].
  - exists JSONDecodeError. vm_compute.
    apply elem_of_cons. right. apply elem_of_cons. by left.
  - rewrite script_reports by reflexivity. rewrite gather_rejected.
    intros [[detail [=]]|(resp & [= <-] & [Hstatus|[=]])].
    cbn in Hstatus. lia.
Qed.

Lemma date_ltb_irrefl d : date_ltb d d = false.
Proof. unfold date_ltb. rewrite !Z.ltb_irrefl, !Z.eqb_refl. reflexivity. Qed.

(** C9: with the start date after the end date the run shows the
    validation error and sends nothing; otherwise, the two dates being equal
    included, no validation error is shown, a press of the button sends the
    request, and without a press nothing happens. *)
Theorem validation_before_fetch (i : inputs) (api : registry) :
  (date_ltb (end_date i) (start_date i) = true →
     script i api = ([validation_error], Completed)
     ∧ ∀ u q l, http_get u q l ∉ (script i api).1)
  ∧ (date_ltb (end_date i) (start_date i) = false →
     (validation_error ∉ (script i api).1)
     ∧ (fetch_button i = true →
        ∃ shown o,
          script i api = (http_get url (search_query i) 500 :: shown, o))
     ∧ (fetch_button i = false → script i api = ([], Completed)))
  ∧ (start_date i = end_date i → date_ltb (end_date i) (start_date i) = false).
Proof.
  split_and!.
  - intros Hlate. unfold script. rewrite Hlate. split; [done |].
    intros u q l Hin. cbn in Hin.
    apply elem_of_cons in Hin as [Hin|Hin]; [done |].
    by apply elem_of_nil in Hin.
  - intros Hle. split_and!.
    + destruct (fetch_button i) eqn:Hb.
      * rewrite script_fetching by (by unfold date_leb; rewrite ?Hle). cbn zeta.
        unfold validation_error.
        destruct (gather api (search_query i)) as [[drug_data|]|e].
        -- cbn. intros [?|Hin]%elem_of_cons; [done |].
           by apply show_no_error in Hin.
        -- cbn. intros Hin.
           repeat (apply elem_of_cons in Hin as [Hin|Hin]; [done |]).
           by apply elem_of_nil in Hin.
        -- destruct e as [e| | | | | |]; cbn; intros Hin;
             repeat (apply elem_of_cons in Hin as [Hin|Hin]; [done |]);
             by apply elem_of_nil in Hin.
      * unfold script. rewrite Hle, Hb. cbn. by intros ?%elem_of_nil.
    + intros Hb. apply script_sends; [| done].
      unfold date_leb. by rewrite Hle.
    + intros Hb. unfold script. by rewrite Hle, Hb.
  - intros ->. apply date_ltb_irrefl.
Qed.

(** ** The theorems at the inputs of the specification *)

Lemma search_query_date_range_witness :
  valid_date (start_date sample_inputs) = true
  ∧ valid_date (end_date sample_inputs) = true
  ∧ date_leb (start_date sample_inputs) (end_date sample_inputs) = true
  ∧ contains "effective_time:[20241001 TO 20241030]"
      (search_query sample_inputs).
Proof.
  split_and!; try reflexivity.
  exact (proj1 (search_query_date_range sample_inputs (always (found []))
                  eq_refl eq_refl eq_refl)).
Defined.

Lemma generic_name_clause_witness :
  str_truthy "Ibuprofen" = true
  ∧ 4 < len "Ibuprofen"
  ∧ contains
      (" AND openfda.generic_name.exact:" +:+ dquote +:+ "Ibuprofen" +:+ dquote)
      (search_query
         (Inputs (Date 2024 10 1) (Date 2024 10 30) "" "Ibuprofen" true))
  ∧ str_truthy "Ibu" = true
  ∧ len "Ibu" ≤ 4
  ∧ contains " AND openfda.generic_name:Ibu*"
      (search_query (Inputs (Date 2024 10 1) (Date 2024 10 30) "" "Ibu" true)).
Proof.
  split_and!; try reflexivity; try done.
  - exact (proj2 (proj1 (generic_name_clause (Date 2024 10 1) (Date 2024 10 30)
                           "" "Ibuprofen" true eq_refl) eq_refl)).
  - exact (proj1 (proj2 (proj2 (generic_name_clause (Date 2024 10 1)
                                  (Date 2024 10 30) "" "Ibu" true eq_refl)
                           ltac:(done)))).
Defined.

Lemma manufacturer_clause_prefix_witness :
  str_truthy "Pfizer" = true
  ∧ contains " AND openfda.manufacturer_name:Pfiz*"
      (search_query
         (Inputs (Date 2024 10 1) (Date 2024 10 30) "Pfizer" "" true))
  ∧ slice_to 4 "Pfizer" = "Pfiz".
Proof.
  split_and!; try reflexivity.
  exact (proj1 (proj2 (manufacturer_clause_prefix (Date 2024 10 1)
                         (Date 2024 10 30) "Pfizer" "" true eq_refl))).
Defined.

Lemma fetch_error_iff_witness :
  date_leb (start_date sample_inputs) (end_date sample_inputs) = true
  ∧ fetch_button sample_inputs = true
  ∧ script sample_inputs (always (Replied (Response 500 NotJSON)))
    = ([http_get url "effective_time:[20241001 TO 20241030]" 500;
        fetch_error (HTTPError 500)], Completed)
  ∧ network_error_reported
      (script sample_inputs (always (Replied (Response 500 NotJSON)))).1.
Proof.
  split_and!; try reflexivity.
  apply (proj1 (fetch_error_iff sample_inputs
                  (always (Replied (Response 500 NotJSON))) eq_refl eq_refl)).
  right. exists (Response 500 NotJSON). split; [reflexivity |]. left. done.
Defined.

(** Three records in range and no filter: a table of three rows and one
    bucket of three. *)
Example three_records_one_bucket :
  let run :=
    script sample_inputs
      (always (found [advil_record; advil_record;
                      JObj {[ "effective_time" := JStr "20241001" ]}])) in
  run.2 = Completed
  ∧ omap (λ ev, match ev with st_dataframe df => Some (nrows df) | _ => None end)
      run.1 = [3%nat]
  ∧ omap (λ ev, match ev with st_pyplot bars => Some bars | _ => None end)
      run.1 = [[(period 2024 10, 3%nat)]].
Proof. vm_compute. done. Qed.

(** A status of 500: the error is reported; no table, chart or download. *)
Example server_error_shows_nothing :
  script sample_inputs (always (Replied (Response 500 (Decoded JNull))))
  = ([http_get url "effective_time:[20241001 TO 20241030]" 500;
      fetch_error (HTTPError 500)], Completed).
Proof. reflexivity. Qed.

(** For a name of five characters that ends with the wildcard, the prefix
    with its wildcard is spelled like the name; the clause is still made of
    the prefix. *)
Example manufacturer_prefix_with_star :
  manufacturer_clause "Pfiz*" = " AND openfda.manufacturer_name:Pfiz*".
Proof. reflexivity. Qed.

(** One record, without a date: the table is shown and the run ends on
    the plot of line 95; no chart and no download. *)
Example undated_record_ends_on_plot :
  let run := script sample_inputs (always (found [JObj ∅])) in
  run.2 = Uncaught IndexError
  ∧ omap (λ ev, match ev with st_dataframe df => Some (nrows df) | _ => None end)
      run.1 = [1%nat]
  ∧ downloads run.1 = [].
Proof. vm_compute. done. Qed.

(** * Further properties *)

(** ** The expression and its inputs *)

Lemma str_app_inj_r s1 s2 t : s1 +:+ t = s2 +:+ t → s1 = s2.
Proof.
  revert s2. induction s1 as [|c s1 IH]; intros [|c2 s2] Heq.
  - done.
  - apply (f_equal String.length) in Heq.
    rewrite !str_length_app in Heq. cbn [String.length] in Heq. lia.
  - apply (f_equal String.length) in Heq.
    rewrite !str_length_app in Heq. cbn [String.length] in Heq. lia.
  - rewrite !str_app_cons in Heq. injection Heq as -> Heq.
    f_equal. by apply IH.
Qed.

Lemma date_ltb_number a b :
  valid_date a = true → valid_date b = true →
  date_ltb a b = true ↔ date_number a < date_number b.
Proof.
  intros (_ & Hma & Hda)%valid_date_bounds (_ & Hmb & Hdb)%valid_date_bounds.
  unfold date_ltb, date_number.
  rewrite !orb_true_iff, !andb_true_iff, !orb_true_iff, !andb_true_iff,
    !Z.ltb_lt, !Z.eqb_eq.
  lia.
Qed.

(** X1: the validation of line 27 passes exactly when the number spelled
    by START is at most the one spelled by END, START and END being the two
    eight-digit numerals line 35 puts in the expression: the range sent is
    never inverted. *)
Theorem validation_orders_range (i : inputs) :
  valid_date (start_date i) = true →
  valid_date (end_date i) = true →
  (date_ltb (end_date i) (start_date i) = false
   ↔ date_number (start_date i) ≤ date_number (end_date i))
  ∧ search_query i
    = ("effective_time:[" +:+ zero_padded 8 (date_number (start_date i))
         +:+ " TO " +:+ zero_padded 8 (date_number (end_date i)) +:+ "]")
        +:+ manufacturer_clause (manufacturer_name i)
        +:+ generic_clause (generic_name i).
Proof.
  intros Hs He. split.
  - rewrite <- not_true_iff_false, date_ltb_number by done. lia.
  - destruct i as [s e m g b]. cbn [start_date end_date manufacturer_name
      generic_name] in *.
    rewrite search_query_unfold. unfold date_range, date_number.
    by rewrite !strftime_Ymd_numeral.
Qed.

Lemma validation_orders_range_witness :
  valid_date (start_date sample_inputs) = true
  ∧ valid_date (end_date sample_inputs) = true
  ∧ date_ltb (end_date sample_inputs) (start_date sample_inputs) = false
  ∧ date_number (start_date sample_inputs)
    ≤ date_number (end_date sample_inputs).
Proof.
  split_and!; [reflexivity | reflexivity | reflexivity |].
  exact (proj1 (proj1 (validation_orders_range sample_inputs eq_refl eq_refl))
           eq_refl).
Defined.

(** X2: two manufacturer names that are not empty give the same
    expression exactly when they start with the same four characters: what
    comes after the fourth character never reaches the registry. *)
Theorem manufacturer_name_up_to_prefix (s e : date) (m1 m2 g : string) (b : bool) :
  str_truthy m1 = true →
  str_truthy m2 = true →
  search_query (Inputs s e m1 g b) = search_query (Inputs s e m2 g b)
  ↔ slice_to 4 m1 = slice_to 4 m2.
Proof.
  intros H1 H2. rewrite !search_query_unfold. unfold manufacturer_clause.
  rewrite H1, H2. split.
  - intros Heq. apply (inj (String.append _)) in Heq.
    rewrite !str_app_assoc in Heq.
    apply (inj (String.append _)) in Heq.
    by apply str_app_inj_r in Heq.
  - by intros ->.
Qed.

Lemma manufacturer_name_up_to_prefix_witness :
  str_truthy "Pfizer" = true
  ∧ str_truthy "Pfizzz Labs" = true
  ∧ search_query (Inputs (Date 2024 10 1) (Date 2024 10 30) "Pfizer" "" true)
    = search_query
        (Inputs (Date 2024 10 1) (Date 2024 10 30) "Pfizzz Labs" "" true).
Proof.
  split_and!; [reflexivity | reflexivity |].
  by apply (manufacturer_name_up_to_prefix (Date 2024 10 1) (Date 2024 10 30)
              "Pfizer" "Pfizzz Labs" "" true eq_refl eq_refl).
Defined.

Lemma generic_clause_inj g1 g2 :
  generic_clause g1 = generic_clause g2 → g1 = g2.
Proof.
  unfold generic_clause.
  destruct (str_truthy g1) eqn:H1, (str_truthy g2) eqn:H2.
  - destruct (Z.ltb_spec 4 (len g1)), (Z.ltb_spec 4 (len g2)); intros Heq.
    + do 2 apply (inj (String.append _)) in Heq.
      by apply str_app_inj_r in Heq.
    + repeat rewrite str_app_cons in Heq. simplify_eq.
    + repeat rewrite str_app_cons in Heq. simplify_eq.
    + apply (inj (String.append _)) in Heq. apply str_app_inj_r in Heq.
      rewrite !slice_to_all in Heq by (unfold len in *; lia). done.
  - destruct g2; [| done]. case_match; intros Heq;
      repeat rewrite str_app_cons in Heq; simplify_eq.
  - destruct g1; [| done]. case_match; intros Heq;
      repeat rewrite str_app_cons in Heq; simplify_eq.
  - destruct g1, g2; done.
Qed.

(** X3: unlike the manufacturer name, the generic name can be read back
    from the expression: two generic names, empty or not, short or long, give
    the same expression only when they are the same name. *)
Theorem generic_name_read_back (s e : date) (m g1 g2 : string) (b : bool) :
  search_query (Inputs s e m g1 b) = search_query (Inputs s e m g2 b)
  ↔ g1 = g2.
Proof.
  split; [| by intros ->].
  rewrite !search_query_unfold. intros Heq.
  do 2 apply (inj (String.append _)) in Heq.
  by apply generic_clause_inj.
Qed.

(** ** Records *)

Lemma has_first_py_first v : has_first v = true ↔ ∃ x, py_first v = Ok x.
Proof.
  destruct v as [| | |[|c s]|[|x l]|]; cbn; split;
    first [done | by intros [? [=]] | by eexists].
Qed.

(** X4: the normaliser succeeds exactly on the objects whose [openfda],
    when there, is an object, and whose three names, when there, are each a
    list or a string with something in it. *)
Theorem normalize_succeeds_iff (raw : json) :
  (∃ row, normalize raw = Ok row)
  ↔ ∃ fields openfda,
      raw = JObj fields
      ∧ default (JObj ∅) (fields !! "openfda") = JObj openfda
      ∧ has_first (default (JArr [NA]) (openfda !! "brand_name")) = true
      ∧ has_first (default (JArr [NA]) (openfda !! "generic_name")) = true
      ∧ has_first (default (JArr [NA]) (openfda !! "manufacturer_name")) = true.
Proof.
  unfold normalize, drug_dict, openfda_first. split.
  - intros [row Hrow]. destruct raw as [| | | | |fields]; try done.
    cbn [py_get mbind result_bind] in Hrow. exists fields.
    destruct (default (JObj ∅) (fields !! "openfda"))
      as [| | | | |openfda]; try done.
    exists openfda. cbn [py_get mbind result_bind] in Hrow.
    destruct (py_first (default (JArr [NA]) (openfda !! "brand_name")))
      as [b|] eqn:Hb; [| done].
    destruct (py_first (default (JArr [NA]) (openfda !! "generic_name")))
      as [g|] eqn:Hg; [| done].
    destruct (py_first (default (JArr [NA]) (openfda !! "manufacturer_name")))
      as [m|] eqn:Hm; [| done].
    split_and!; try done; apply has_first_py_first; by eexists.
  - intros (fields & openfda & -> & Ho & [b Hb]%has_first_py_first
            & [g Hg]%has_first_py_first & [m Hm]%has_first_py_first).
    cbn [py_get mbind result_bind]. rewrite Ho.
    cbn [py_get mbind result_bind]. rewrite Hb, Hg, Hm. by eexists.
Qed.

(** X5: a name of [openfda] given as a string instead of a list is cut to
    its first character, whichever of the three names it is and whatever the
    other two are, on every record the normaliser succeeds on. *)
Theorem string_field_first_character (fields openfda : gmap string json) :
  fields !! "openfda" = Some (JObj openfda) →
  has_first (default (JArr [NA]) (openfda !! "brand_name")) = true →
  has_first (default (JArr [NA]) (openfda !! "generic_name")) = true →
  has_first (default (JArr [NA]) (openfda !! "manufacturer_name")) = true →
  ∃ row,
    normalize (JObj fields) = Ok row
    ∧ (∀ c rest,
         openfda !! "brand_name" = Some (JStr (String c rest)) →
         NormalizedRow.brand_name row = JStr (String c ""))
    ∧ (∀ c rest,
         openfda !! "generic_name" = Some (JStr (String c rest)) →
         NormalizedRow.generic_name row = JStr (String c ""))
    ∧ (∀ c rest,
         openfda !! "manufacturer_name" = Some (JStr (String c rest)) →
         NormalizedRow.manufacturer_name row = JStr (String c "")).
Proof.
  intros Ho [b Hb]%has_first_py_first [g Hg]%has_first_py_first
    [m Hm]%has_first_py_first.
  assert (default (JObj ∅) (fields !! "openfda") = JObj openfda) as Ho'
    by by rewrite Ho.
  eexists. split.
  - unfold normalize, drug_dict, openfda_first.
    cbn [py_get mbind result_bind]. rewrite Ho'.
    cbn [py_get mbind result_bind]. rewrite Hb, Hg, Hm. reflexivity.
  - cbn [row_of_entry Brand_Name Generic_Name Manufacturer_Name
           NormalizedRow.brand_name NormalizedRow.generic_name
           NormalizedRow.manufacturer_name].
    split_and!; intros c rest Hfield.
    + rewrite Hfield in Hb. cbn in Hb. congruence.
    + rewrite Hfield in Hg. cbn in Hg. congruence.
    + rewrite Hfield in Hm. cbn in Hm. congruence.
Qed.

Lemma string_field_first_character_witness :
  ∃ row,
    normalize
      (JObj {[ "openfda" :=
                 JObj {[ "brand_name" := JStr "Advil";
                         "generic_name" := JStr "IBUPROFEN";
                         "manufacturer_name" := JArr [JStr "Pfizer"] ]} ]})
    = Ok row
    ∧ NormalizedRow.brand_name row = JStr "A"
    ∧ NormalizedRow.generic_name row = JStr "I"
    ∧ NormalizedRow.manufacturer_name row = JStr "Pfizer".
Proof.
  destruct (string_field_first_character
              {[ "openfda" :=
                   JObj {[ "brand_name" := JStr "Advil";
                           "generic_name" := JStr "IBUPROFEN";
                           "manufacturer_name" := JArr [JStr "Pfizer"] ]} ]}
              {[ "brand_name" := JStr "Advil";
                 "generic_name" := JStr "IBUPROFEN";
                 "manufacturer_name" := JArr [JStr "Pfizer"] ]})
    as (row & Hrow & Hb & Hg & _);
    [reflexivity | reflexivity | reflexivity | reflexivity |].
  exists row. split_and!.
  - exact Hrow.
  - apply (Hb (Ascii.ascii_of_nat 65) "dvil"). reflexivity.
  - apply (Hg (Ascii.ascii_of_nat 73) "BUPROFEN"). reflexivity.
  - vm_compute in Hrow. by injection Hrow as <-.
Defined.

(** X6: the text of a date as the expression has it is read back by
    line 83 as that date, for every date a timestamp can hold: a record
    stamped with the start or the end of the range gets that very day, and
    falls in its month. *)
Theorem effective_time_reads_query_format (d : date) (fields : gmap string json) :
  valid_date d = true →
  in_Timestamp_range d = true →
  fields !! "effective_time" = Some (JStr (strftime_Ymd d)) →
  to_datetime_cell (JStr (strftime_Ymd d)) = Some d
  ∧ (∀ row, normalize (JObj fields) = Ok row →
       NormalizedRow.effective_time row = Some d
       ∧ approval_month row = Some (period (year d) (month d))).
Proof.
  intros Hv Hr Hf.
  assert (to_datetime_cell (JStr (strftime_Ymd d)) = Some d) as Hcell.
  { unfold to_datetime_cell. cbn [mbind option_bind].
    rewrite strptime_strftime_Ymd by done. cbn [mbind option_bind].
    by rewrite Hr. }
  split; [done |]. intros row Hrow.
  apply normalize_effective_time in Hrow. rewrite Hf in Hrow.
  change (default NA (Some (JStr (strftime_Ymd d))))
    with (JStr (strftime_Ymd d)) in Hrow.
  unfold approval_month. rewrite Hrow, Hcell. done.
Qed.

Lemma effective_time_reads_query_format_witness :
  valid_date (Date 2024 10 30) = true
  ∧ in_Timestamp_range (Date 2024 10 30) = true
  ∧ to_datetime_cell (JStr (strftime_Ymd (Date 2024 10 30)))
    = Some (Date 2024 10 30).
Proof.
  split_and!; [reflexivity | reflexivity |].
  exact (proj1 (effective_time_reads_query_format (Date 2024 10 30)
                  {[ "effective_time" := JStr "20241030" ]}
                  eq_refl eq_refl eq_refl)).
Defined.

(** ** Runs *)

Lemma gather_accepted api search data :
  accepted (api url search 500) data →
  gather api search
  = (results ← py_get data "results" (JArr []);
     if py_truthy results then
       drug_data ← build_drug_data results;
       mret (Some drug_data)
     else mret None).
Proof.
  intros (resp & Hr & Hstatus & Hbody).
  unfold gather, fetch, requests_get. rewrite Hr.
  cbn [mbind result_bind]. unfold raise_for_status, response_json.
  destruct ((400 <=? status_code resp) && (status_code resp <? 600))
    eqn:Hs; [lia |].
  cbn [mbind result_bind]. by rewrite Hbody.
Qed.

Lemma mapM_result_Forall2 {A B} (f : A → result B) l k :
  mapM f l = Ok k ↔ Forall2 (λ x y, f x = Ok y) l k.
Proof.
  revert k. induction l as [|x l IH]; intros k; cbn [mapM].
  - split; [intros [= <-]; constructor | by intros ->%Forall2_nil_inv_l].
  - destruct (f x) as [y|e] eqn:Hx; cbn [mbind result_bind].
    + destruct (mapM f l) as [k'|e] eqn:Hl; cbn [mbind result_bind].
      * split.
        -- intros [= <-]. constructor; [done | by apply IH].
        -- intros (y' & k'' & Hy & Hk & ->)%Forall2_cons_inv_l.
           apply IH in Hk. rewrite Hx in Hy. by simplify_eq.
      * split; [done |].
        intros (y' & k'' & Hy & Hk & ->)%Forall2_cons_inv_l.
        by apply IH in Hk.
    + split; [done |].
      intros (y' & k'' & Hy & Hk & ->)%Forall2_cons_inv_l. congruence.
Qed.

Lemma mapM_result_first_failure {A B} (f : A → result B) good bad rest e :
  Forall (λ x, ∃ y, f x = Ok y) good →
  f bad = Raise e →
  mapM f (good ++ bad :: rest) = Raise e.
Proof.
  intros Hgood Hbad. induction Hgood as [|x good [y Hx] _ IH]; cbn [app mapM].
  - by rewrite Hbad.
  - rewrite Hx. cbn [mbind result_bind]. by rewrite IH.
Qed.

(** X7: a run sends at most one request, and only with the dates in order
    and the button pressed; it goes to the url of line 8 with the expression
    of lines 31-48 and the limit 500, whatever happens after. *)
Theorem one_request_per_run (i : inputs) (api : registry) :
  http_gets (script i api).1
  = if date_leb (start_date i) (end_date i) && fetch_button i
    then [(url, search_query i, 500)]
    else [].
Proof.
  unfold script, date_leb.
  destruct (date_ltb (end_date i) (start_date i)); [done |].
  destruct (fetch_button i); [| done]. cbn [negb andb].
  destruct (gather api (search_query i)) as [[drug_data|]|e].
  - destruct (decide ((analyse drug_data).2 = [])) as [Hnil|Hdated].
    + by rewrite show_undated.
    + by rewrite show_dated.
  - done.
  - by destruct e.
Qed.

(** X8: the status is looked at before the body: a reply with a status
    from 400 to 599 is reported as that HTTP error whatever its body holds,
    records included; and a request that raised is reported with its own
    detail. *)
Theorem status_checked_before_body (i : inputs) (api : registry) :
  date_leb (start_date i) (end_date i) = true →
  fetch_button i = true →
  let sent := http_get url (search_query i) 500 in
  let r := api url (search_query i) 500 in
  (∀ resp, r = Replied resp → 400 ≤ status_code resp < 600 →
     script i api
     = ([sent; fetch_error (HTTPError (status_code resp))], Completed))
  ∧ (∀ detail, r = Failed detail →
       script i api = ([sent; fetch_error (TransportError detail)], Completed)).
Proof.
  intros Hle Hb sent r. split.
  - intros resp Hr Hstatus. rewrite script_fetching by done. cbn zeta.
    unfold gather, fetch, requests_get. fold r. rewrite Hr.
    cbn [mbind result_bind]. unfold raise_for_status.
    destruct ((400 <=? status_code resp) && (status_code resp <? 600))
      eqn:Hs; [done | lia].
  - intros detail Hr. rewrite script_fetching by done. cbn zeta.
    unfold gather, fetch, requests_get. fold r. by rewrite Hr.
Qed.

Lemma status_checked_before_body_witness :
  date_leb (start_date sample_inputs) (end_date sample_inputs) = true
  ∧ fetch_button sample_inputs = true
  ∧ script sample_inputs
      (always (Replied (Response 404
         (Decoded (JObj {[ "results" := JArr [advil_record] ]})))))
    = ([http_get url (search_query sample_inputs) 500;
        fetch_error (HTTPError 404)], Completed).
Proof.
  split_and!; [reflexivity | reflexivity |].
  apply (proj1 (status_checked_before_body sample_inputs
                  (always (Replied (Response 404
                     (Decoded (JObj {[ "results" := JArr [advil_record] ]})))))
                  eq_refl eq_refl)
           (Response 404 (Decoded (JObj {[ "results" := JArr [advil_record] ]})))
           eq_refl).
  cbn. lia.
Defined.

(** X9: a body that is JSON but no object (a list, a string, a number,
    null) makes line 65 raise [AttributeError]; nothing catches it and
    nothing is shown. *)
Theorem non_object_body_ends_run (i : inputs) (api : registry) (data : json) :
  date_leb (start_date i) (end_date i) = true →
  fetch_button i = true →
  accepted (api url (search_query i) 500) data →
  (∀ fields, data ≠ JObj fields) →
  script i api
  = ([http_get url (search_query i) 500], Uncaught AttributeError).
Proof.
  intros Hle Hb Hacc Hdata. rewrite script_fetching by done. cbn zeta.
  rewrite gather_accepted with (data := data) by done.
  destruct data as [| | | | |fields]; try done. by destruct (Hdata fields).
Qed.

Lemma non_object_body_ends_run_witness :
  date_leb (start_date sample_inputs) (end_date sample_inputs) = true
  ∧ fetch_button sample_inputs = true
  ∧ script sample_inputs
      (always (Replied (Response 200 (Decoded (JArr [advil_record])))))
    = ([http_get url (search_query sample_inputs) 500],
       Uncaught AttributeError).
Proof.
  split_and!; [reflexivity | reflexivity |].
  apply (non_object_body_ends_run sample_inputs
           (always (Replied (Response 200 (Decoded (JArr [advil_record])))))
           (JArr [advil_record]) eq_refl eq_refl).
  - exists (Response 200 (Decoded (JArr [advil_record]))).
    split_and!; [reflexivity | cbn; lia | reflexivity].
  - discriminate.
Defined.

(** X10: whatever false value [results] holds (null, false, 0, an empty
    string, an empty object, as well as an empty list or no [results] at
    all), the run shows the message that nothing was found. *)
Theorem falsy_results_info
    (i : inputs) (api : registry) (fields : gmap string json) :
  date_leb (start_date i) (end_date i) = true →
  fetch_button i = true →
  accepted (api url (search_query i) 500) (JObj fields) →
  py_truthy (default (JArr []) (fields !! "results")) = false →
  script i api
  = ([http_get url (search_query i) 500; no_labels_found], Completed).
Proof.
  intros Hle Hb Hacc Hfalsy. rewrite script_fetching by done. cbn zeta.
  rewrite gather_accepted with (data := JObj fields) by done.
  cbn [py_get mbind result_bind]. by rewrite Hfalsy.
Qed.

Lemma falsy_results_info_witness :
  date_leb (start_date sample_inputs) (end_date sample_inputs) = true
  ∧ fetch_button sample_inputs = true
  ∧ script sample_inputs
      (always (Replied (Response 200 (Decoded (JObj {[ "results" := JNull ]})))))
    = ([http_get url (search_query sample_inputs) 500; no_labels_found],
       Completed).
Proof.
  split_and!; [reflexivity | reflexivity |].
  apply (falsy_results_info sample_inputs
           (always (Replied (Response 200 (Decoded (JObj {[ "results" := JNull ]})))))
           {[ "results" := JNull ]} eq_refl eq_refl).
  - exists (Response 200 (Decoded (JObj {[ "results" := JNull ]}))).
    split_and!; [reflexivity | cbn; lia | reflexivity].
  - reflexivity.
Defined.

Lemma build_drug_data_non_list results :
  py_truthy results = true →
  (∀ records, results ≠ JArr records) →
  build_drug_data results = Raise (non_list_exception results).
Proof.
  intros Htruthy Hlist. unfold build_drug_data.
  destruct results as [| | |s|records|fields]; try done.
  - by destruct s.
  - by destruct (Hlist records).
  - cbn [py_iter mbind result_bind non_list_exception].
    cbn [py_truthy] in Htruthy.
    apply negb_true_iff, bool_decide_eq_false in Htruthy.
    destruct (map_to_list fields) as [|[key v] kvs] eqn:Hkvs.
    + destruct Htruthy. by rewrite <- length_map_to_list, Hkvs.
    + done.
Qed.

(** X11: a true [results] that is no list ends the run on an exception
    nothing catches, with nothing shown: [TypeError] for a number or [true],
    [AttributeError] for a string or an object. *)
Theorem non_list_results_end_run
    (i : inputs) (api : registry) (fields : gmap string json) (results : json) :
  date_leb (start_date i) (end_date i) = true →
  fetch_button i = true →
  accepted (api url (search_query i) 500) (JObj fields) →
  fields !! "results" = Some results →
  py_truthy results = true →
  (∀ records, results ≠ JArr records) →
  script i api
  = ([http_get url (search_query i) 500],
     Uncaught (non_list_exception results)).
Proof.
  intros Hle Hb Hacc Hresults Htruthy Hlist.
  rewrite script_fetching by done. cbn zeta.
  rewrite gather_accepted with (data := JObj fields) by done.
  cbn [py_get mbind result_bind]. rewrite Hresults.
  change (default (JArr []) (Some results)) with results.
  rewrite Htruthy, build_drug_data_non_list by done.
  by destruct results.
Qed.

Lemma non_list_results_end_run_witness :
  date_leb (start_date sample_inputs) (end_date sample_inputs) = true
  ∧ fetch_button sample_inputs = true
  ∧ script sample_inputs
      (always (Replied (Response 200
         (Decoded (JObj {[ "results" := advil_record ]})))))
    = ([http_get url (search_query sample_inputs) 500],
       Uncaught AttributeError).
Proof.
  split_and!; [reflexivity | reflexivity |].
  apply (non_list_results_end_run sample_inputs
           (always (Replied (Response 200
              (Decoded (JObj {[ "results" := advil_record ]})))))
           {[ "results" := advil_record ]} advil_record eq_refl eq_refl).
  - exists (Response 200 (Decoded (JObj {[ "results" := advil_record ]}))).
    split_and!; [reflexivity | cbn; lia | reflexivity].
  - reflexivity.
  - vm_compute. reflexivity.
  - discriminate.
Defined.

(** X12: the loop of lines 71-77 stops at the first record that cannot be
    reshaped: its exception ends the run with nothing shown, however many
    records before it were fine and whatever comes after it. *)
Theorem first_failing_record_ends_run
    (i : inputs) (api : registry) (fields : gmap string json)
    (good : list json) (bad : json) (rest : list json) (e : exn) :
  date_leb (start_date i) (end_date i) = true →
  fetch_button i = true →
  accepted (api url (search_query i) 500) (JObj fields) →
  fields !! "results" = Some (JArr (good ++ bad :: rest)) →
  Forall (λ record, ∃ entry, drug_dict record = Ok entry) good →
  drug_dict bad = Raise e →
  script i api = ([http_get url (search_query i) 500], Uncaught e).
Proof.
  intros Hle Hb Hacc Hresults Hgood Hbad.
  rewrite script_fetching by done. cbn zeta.
  rewrite gather_accepted with (data := JObj fields) by done.
  cbn [py_get mbind result_bind]. rewrite Hresults.
  change (default (JArr []) (Some ?v)) with v.
  assert (py_truthy (JArr (good ++ bad :: rest)) = true) as ->
    by by destruct good.
  unfold build_drug_data. cbn [py_iter mbind result_bind].
  rewrite (mapM_result_first_failure _ _ _ _ e) by done.
  cbn [mbind result_bind].
  destruct e as [e| | | | | |]; try done.
  destruct (drug_dict_not_request bad). by exists e.
Qed.

Lemma first_failing_record_ends_run_witness :
  date_leb (start_date sample_inputs) (end_date sample_inputs) = true
  ∧ fetch_button sample_inputs = true
  ∧ script sample_inputs
      (always (found [advil_record; JNull; advil_record]))
    = ([http_get url (search_query sample_inputs) 500],
       Uncaught AttributeError).
Proof.
  split_and!; [reflexivity | reflexivity |].
  apply (first_failing_record_ends_run sample_inputs
           (always (found [advil_record; JNull; advil_record]))
           {[ "results" := JArr [advil_record; JNull; advil_record] ]}
           [advil_record] JNull [advil_record] AttributeError
           eq_refl eq_refl).
  - eexists. split_and!; [reflexivity | cbn; lia | reflexivity].
  - reflexivity.
  - constructor; [| constructor]. eexists. vm_compute. reflexivity.
  - reflexivity.
Defined.

(** X13: when every record of the reply can be reshaped, the table shown
    is one table of five columns with one row per record, in the order of the
    reply, each row made from its record. *)
Theorem table_rows_follow_records
    (i : inputs) (api : registry) (fields : gmap string json)
    (records : list json) (entries : list drug_entry) :
  date_leb (start_date i) (end_date i) = true →
  fetch_button i = true →
  accepted (api url (search_query i) 500) (JObj fields) →
  fields !! "results" = Some (JArr records) →
  records ≠ [] →
  Forall2 (λ record entry, drug_dict record = Ok entry) records entries →
  ∃ df,
    tables (script i api).1 = [df]
    ∧ columns df
      = ["Brand Name"; "Generic Name"; "Manufacturer Name"; "Effective Time";
         "Approval Month"]
    ∧ nrows df = length records
    ∧ row_at df <$> seq 0 (nrows df) = csv_record ∘ row_of_entry <$> entries.
Proof.
  intros Hle Hb Hacc Hresults Hne Hall.
  exists (analyse entries).1. split_and!.
  - rewrite script_fetching by done. cbn zeta.
    rewrite gather_accepted with (data := JObj fields) by done.
    cbn [py_get mbind result_bind]. rewrite Hresults.
    change (default (JArr []) (Some ?v)) with v.
    assert (py_truthy (JArr records) = true) as -> by by destruct records.
    unfold build_drug_data. cbn [py_iter mbind result_bind].
    apply mapM_result_Forall2 in Hall as ->.
    cbn [mbind result_bind mret result_ret fst].
    destruct (decide ((analyse entries).2 = [])) as [Hnil|Hdated].
    + by rewrite show_undated.
    + by rewrite show_dated.
  - reflexivity.
  - rewrite analyse_table. cbn [nrows series_cells].
    rewrite !length_fmap. symmetry. by eapply Forall2_length.
  - apply analyse_records.
Qed.

Lemma table_rows_follow_records_witness :
  date_leb (start_date sample_inputs) (end_date sample_inputs) = true
  ∧ fetch_button sample_inputs = true
  ∧ ∃ df,
      tables (script sample_inputs (always (found [advil_record]))).1 = [df]
      ∧ nrows df = 1%nat.
Proof.
  split_and!; [reflexivity | reflexivity |].
  destruct (table_rows_follow_records sample_inputs
              (always (found [advil_record]))
              {[ "results" := JArr [advil_record] ]} [advil_record]
              [DrugEntry (JStr "Advil") (JStr "IBUPROFEN") (JStr "Pfizer")
                 (JStr "20241015")]
              eq_refl eq_refl)
    as (df & Htables & _ & Hrows & _).
  - eexists. split_and!; [reflexivity | cbn; lia | reflexivity].
  - reflexivity.
  - discriminate.
  - constructor; [vm_compute; reflexivity | constructor].
  - exists df. split; [exact Htables | exact Hrows].
Defined.

(** X14: a run never mixes a message with results: either it shows no
    message, or it shows exactly one message and neither table nor chart nor
    download.  It shows at most one table, and a download only together with
    a chart and after a table. *)
Theorem messages_exclude_table (i : inputs) (api : registry) :
  let events := (script i api).1 in
  (messages events = []
   ∨ (length (messages events) = 1%nat
      ∧ tables events = [] ∧ charts events = [] ∧ downloads events = []))
  ∧ (length (tables events) ≤ 1)%nat
  ∧ length (downloads events) = length (charts events)
  ∧ (length (charts events) ≤ length (tables events))%nat.
Proof.
  unfold script.
  destruct (date_ltb (end_date i) (start_date i)).
  { cbn. split_and!; (done || lia || by right). }
  destruct (fetch_button i).
  2: { cbn. split_and!; (done || lia || by left). }
  destruct (gather api (search_query i)) as [[drug_data|]|e].
  - destruct (decide ((analyse drug_data).2 = [])) as [Hnil|Hdated].
    + rewrite show_undated by done. cbn.
      split_and!; (done || lia || by left).
    + rewrite show_dated by done. cbn.
      split_and!; (done || lia || by left).
  - cbn. split_and!; (done || lia || by right).
  - destruct e; cbn; split_and!; first [done | lia | by left | by right].
Qed.

(** ** Counts *)

Section more_groups.
Implicit Types (k : Z) (n : nat) (groups : list (Z * nat)).

(** A list of groups is known by its counts. *)
Lemma groups_ext groups1 groups2 :
  StronglySorted Z.lt groups1.*1 →
  StronglySorted Z.lt groups2.*1 →
  Forall (λ kn, (0 < kn.2)%nat) groups1 →
  Forall (λ kn, (0 < kn.2)%nat) groups2 →
  (∀ k, bucket k groups1 = bucket k groups2) →
  groups1 = groups2.
Proof.
  revert groups2.
  induction groups1 as [|[k1 n1] rest1 IH]; intros [|[k2 n2] rest2];
    rewrite ?fmap_cons; intros Hs1 Hs2 Hp1 Hp2 Hb.
  - done.
  - apply Forall_cons in Hp2 as [Hn2 _]. specialize (Hb k2).
    cbn [bucket snd] in *. rewrite Z.eqb_refl in Hb. lia.
  - apply Forall_cons in Hp1 as [Hn1 _]. specialize (Hb k1).
    cbn [bucket snd] in *. rewrite Z.eqb_refl in Hb. lia.
  - apply StronglySorted_inv in Hs1 as [Hs1 Hall1].
    apply StronglySorted_inv in Hs2 as [Hs2 Hall2].
    apply Forall_cons in Hp1 as [Hn1 Hp1].
    apply Forall_cons in Hp2 as [Hn2 Hp2].
    cbn [fst snd] in *.
    assert (∀ k, k ≤ k1 → bucket k rest1 = 0%nat) as Hlow1.
    { intros k Hk. apply bucket_absent. intros Hin.
      eapply Forall_forall in Hall1; [| done]. lia. }
    assert (∀ k, k ≤ k2 → bucket k rest2 = 0%nat) as Hlow2.
    { intros k Hk. apply bucket_absent. intros Hin.
      eapply Forall_forall in Hall2; [| done]. lia. }
    assert (k1 = k2) as ->.
    { pose proof (Hb k1) as Hb1. pose proof (Hb k2) as Hb2.
      cbn [bucket] in Hb1, Hb2. rewrite Z.eqb_refl in Hb1, Hb2.
      destruct (Z.eqb_spec k1 k2) as [|Hne]; [done |].
      destruct (Z.eqb_spec k2 k1) as [|_]; [done |].
      destruct (Z.lt_total k1 k2) as [Hlt|[|Hlt]]; [| done |].
      - rewrite (Hlow2 k1) in Hb1 by lia. lia.
      - rewrite (Hlow1 k2) in Hb2 by lia. lia. }
    assert (n1 = n2) as ->.
    { specialize (Hb k2). cbn [bucket] in Hb. by rewrite Z.eqb_refl in Hb. }
    f_equal. apply IH; try done.
    intros k. destruct (decide (k = k2)) as [->|Hne].
    + rewrite Hlow1, Hlow2 by lia. done.
    + specialize (Hb k). cbn [bucket] in Hb.
      apply Z.eqb_neq in Hne. by rewrite Hne in Hb.
Qed.
End more_groups.

(** X15: the counts do not depend on the order of the records, and the
    counts of two batches of records put together are, month by month, the
    sums of the counts of each. *)
Theorem aggregate_order_and_union :
  (∀ rows1 rows2 : list NormalizedRow.t,
     rows1 ≡ₚ rows2 → aggregate rows1 = aggregate rows2)
  ∧ (∀ (rows1 rows2 : list NormalizedRow.t) k,
       bucket k (aggregate (rows1 ++ rows2))
       = (bucket k (aggregate rows1) + bucket k (aggregate rows2))%nat).
Proof.
  split.
  - intros rows1 rows2 Hperm. unfold aggregate.
    apply groups_ext;
      try apply groupby_size_sorted; try apply groupby_size_positive.
    intros k. fold (aggregate rows1) (aggregate rows2).
    rewrite !aggregate_bucket. by rewrite Hperm.
  - intros rows1 rows2 k.
    by rewrite !aggregate_bucket, filter_app, length_app.
Qed.

Lemma strptime_Ymd_valid s d : strptime_Ymd s = Some d → valid_date d = true.
Proof.
  unfold strptime_Ymd.
  destruct (match_Ymd s) as [[[[y m] dd] rest]|]; cbn [mbind option_bind];
    [| done].
  destruct (str_truthy rest); [done |].
  destruct (valid_date (Date y m dd)) eqn:Hv; [| done]. by intros [= <-].
Qed.

Lemma to_datetime_cell_valid v d :
  to_datetime_cell v = Some d →
  valid_date d = true ∧ in_Timestamp_range d = true.
Proof.
  unfold to_datetime_cell.
  destruct v; cbn [mbind option_bind]; try done;
    (destruct (strptime_Ymd _) as [d'|] eqn:Hs; cbn [mbind option_bind];
     [| done];
     destruct (in_Timestamp_range d') eqn:Hr; [| done];
     intros [= <-]; split; [by eapply strptime_Ymd_valid | done]).
Qed.

(** X16: every bar of the chart is the month of a day some record of the
    reply carries, a day of the calendar a timestamp can hold; the key of the
    bar gives back that year and month; and no bar is higher than the number
    of records. *)
Theorem chart_bars_are_months (drug_data : list drug_entry) :
  Forall (λ bar,
            ∃ entry d,
              entry ∈ drug_data
              ∧ to_datetime_cell (Effective_Time entry) = Some d
              ∧ valid_date d = true
              ∧ in_Timestamp_range d = true
              ∧ bar.1 = period (year d) (month d)
              ∧ period_year bar.1 = year d
              ∧ period_month bar.1 = month d
              ∧ (1 ≤ bar.2 ≤ length drug_data)%nat)
    (analyse drug_data).2.
Proof.
  apply Forall_forall. intros [k n] Hin. rewrite analyse_counts in Hin.
  unfold aggregate in Hin.
  apply elem_of_groups in Hin as [Hn Hb];
    [| apply groupby_size_sorted | apply groupby_size_positive].
  fold (aggregate (row_of_entry <$> drug_data)) in Hb.
  rewrite aggregate_bucket in Hb.
  assert (∃ row, row ∈ filter (λ row, approval_month row = Some k)
                         (row_of_entry <$> drug_data)) as [row Hrow].
  { destruct (filter _ _) as [|row ?]; [done |]. exists row. by left. }
  apply list_elem_of_filter in Hrow as [Hmonth Hrow].
  apply list_elem_of_fmap in Hrow as (entry & -> & Hentry).
  unfold approval_month, row_of_entry in Hmonth.
  cbn [NormalizedRow.effective_time] in Hmonth.
  destruct (to_datetime_cell (Effective_Time entry)) as [d|] eqn:Hd; [| done].
  injection Hmonth as <-.
  destruct (to_datetime_cell_valid _ _ Hd) as [Hv Hr].
  destruct (valid_date_bounds d Hv) as (_ & Hm & _).
  destruct (period_year_month (year d) (month d) Hm) as [Hy Hmo].
  exists entry, d. split_and!; try done.
  - cbn [snd]. lia.
  - cbn [snd]. rewrite <- Hb.
    etrans; [apply length_filter |]. by rewrite length_fmap.
Qed.

(** A registry that always gives the same reply is not asked anything. *)
Lemma gather_always r search : gather (always r) search = gather (always r) "".
Proof. reflexivity. Qed.

(** X17: the [except] clause of line 113 takes every [RequestException],
    so none ever ends a run: a run that ends on an exception has sent the
    request and shows no message, no chart and no download.  The two
    exceptions the decoder of line 64 raises by itself go past the clause,
    although they come from [response.json()]: the run ends on them with
    nothing shown.  And each of [ValueError], [RecursionError],
    [AttributeError], [IndexError], [KeyError] and [TypeError] ends the run on
    some reply, whatever the inputs that let the request go. *)
Theorem uncaught_exceptions (i : inputs) (api : registry) :
  (∀ e,
     (script i api).2 = Uncaught e →
     (∀ r, e ≠ RequestException r)
     ∧ http_gets (script i api).1 = [(url, search_query i, 500)]
     ∧ messages (script i api).1 = []
     ∧ charts (script i api).1 = []
     ∧ downloads (script i api).1 = [])
  ∧ (date_leb (start_date i) (end_date i) = true →
     fetch_button i = true →
     ∀ resp,
       api url (search_query i) 500 = Replied resp →
       ¬ (400 ≤ status_code resp < 600) →
       (body resp = IntegerTooLong →
        script i api
        = ([http_get url (search_query i) 500], Uncaught ValueError))
       ∧ (body resp = NestingTooDeep →
          script i api
          = ([http_get url (search_query i) 500], Uncaught RecursionError)))
  ∧ (date_leb (start_date i) (end_date i) = true →
     fetch_button i = true →
     ∀ e,
       e ∈ [ValueError; RecursionError; AttributeError; IndexError; KeyError;
            TypeError] →
       ∃ r,
         script i (always r)
         = ([http_get url (search_query i) 500], Uncaught e)).
Proof.
  split_and!.
  - unfold script.
    destruct (date_ltb (end_date i) (start_date i)); [done |].
    destruct (fetch_button i); [| done].
    destruct (gather api (search_query i)) as [[drug_data|]|e'] eqn:Hgather.
    + destruct (decide ((analyse drug_data).2 = [])) as [Hnil|Hdated].
      * rewrite show_undated by done. by intros e [= <-].
      * by rewrite show_dated.
    + done.
    + destruct e' as [e'| | | | | |]; [done | by intros e [= <-]..].
  - intros Hle Hb resp Hr Hstatus.
    rewrite script_fetching by done. cbn zeta.
    unfold gather, fetch, requests_get. rewrite Hr.
    cbn [mbind result_bind]. unfold raise_for_status, response_json.
    destruct ((400 <=? status_code resp) && (status_code resp <? 600))
      eqn:Hs; [lia |].
    cbn [mbind result_bind]. by split; intros ->.
  - intros Hle Hb e He.
    assert (∃ r, gather (always r) "" = Raise e ∧ ∀ r', e ≠ RequestException r')
      as (r & Hr & Hne).
    { repeat (apply elem_of_cons in He as [->|He]).
      - by exists (Replied (Response 200 IntegerTooLong)).
      - by exists (Replied (Response 200 NestingTooDeep)).
      - by exists (Replied (Response 200 (Decoded JNull))).
      - exists (found [empty_brand_record]). split; [| done].
        vm_compute. reflexivity.
      - exists (found [JObj {[ "openfda" :=
                                 JObj {[ "brand_name" := JObj ∅ ]} ]}]).
        split; [| done]. vm_compute. reflexivity.
      - exists (found [JObj {[ "openfda" :=
                                 JObj {[ "brand_name" := JNull ]} ]}]).
        split; [| done]. vm_compute. reflexivity.
      - by apply elem_of_nil in He. }
    exists r. rewrite script_fetching by done. cbn zeta.
    rewrite gather_always, Hr. destruct e; [by destruct (Hne e) | done..].
Qed.
